(** * Tabs personal-finance tracker: ledger, import decoder, categorizer
    and dashboard aggregation of [Tabs_Gemini_MVP_1.js], embedded in Rocq.

    Conventions of the embedding.
    - A JS [number] is an IEEE-754 binary64 value: [spec_float] of the
      Standard Library with [prec = 53] and [emax = 1024], with the
      library's round-to-nearest-even operations.
    - A JS string is a [string]; each [ascii] is one code unit in the range
      U+0000..U+00FF (Latin-1).  [toLowerCase], [trim] and the white space
      of [parseFloat] are the ECMAScript ones restricted to that range.
    - React state is passed explicitly: a handler maps the rendered
      [AppState] to the next one.  The [useCallback] closures list
      [transactions] as a dependency, so the [transactions] a handler
      closes over is the one of the state it is applied to.
    - [crypto.randomUUID()] is an input of the handlers that draw ids.
    - Host functions with no source in the repository ([JSON.parse],
      [Number::toString], [Date] decoding) are [Variable]s of a Section.
    - The declared types are erased when the code runs.  The decoders
      build their records from an [any], so [Runtime.importTransactions]
      takes a batch whose descriptions are JSON values and may throw;
      [importTransactions] is the same function on a batch of the declared
      type. *)

From Stdlib Require Import ZArith String Ascii Bool.
From Stdlib Require Import Floats.SpecFloat.
From stdpp Require Import gmap strings list.

Set Warnings "-register-all".
Local Open Scope Z_scope.
Local Open Scope string_scope.

(** ** JS numbers *)

Module Number.

Definition number : Type := spec_float.

Definition prec : Z := 53.
Definition emax : Z := 1024.

Definition zero : number := S754_zero false.
Definition neg_zero : number := S754_zero true.
Definition NaN : number := S754_nan.
Definition Infinity : number := S754_infinity false.

Definition add (x y : number) : number := SFadd prec emax x y.
Definition sub (x y : number) : number := SFsub prec emax x y.
Definition abs (x : number) : number := SFabs x.

(** [x < y] and [x > y]; both are false when an operand is NaN. *)
Definition lt (x y : number) : bool := SFltb x y.
Definition gt (x y : number) : bool := SFltb y x.

(** The global [isNaN] applied to a number. *)
Definition isNaN (x : number) : bool :=
  match x with S754_nan => true | _ => false end.

(** [Number.isFinite]. *)
Definition isFinite (x : number) : bool :=
  match x with S754_zero _ | S754_finite _ _ _ => true | _ => false end.

(** ToBoolean on a number: [+0], [-0] and NaN are falsy. *)
Definition truthy (x : number) : bool :=
  match x with S754_zero _ | S754_nan => false | _ => true end.

(** The number nearest to an integer (an integer literal of the source). *)
Definition of_Z (n : Z) : number := binary_normalize prec emax n 0 false.

(** The number nearest to [(-1)^neg * m * 10^e], ties to even: the value
    of a decimal literal with digits [m] and decimal exponent [e]. *)
Definition of_decimal (neg : bool) (m : Z) (e : Z) : number :=
  match m with
  | Zpos p =>
      match e with
      | Zneg k =>
          let '(q, e', l) :=
            SFdiv_core_binary prec emax (Zpos p) 0 (Z.pow_pos 10 k) 0 in
          binary_round_aux prec emax neg q e' l
      | _ => binary_normalize prec emax (cond_Zopp neg (Zpos p * 10 ^ e)) 0 neg
      end
  | _ => S754_zero neg
  end.

(** SameValueZero: what [===] identifies, with NaN equal to itself. *)
Definition same_value_zero (x y : number) : Prop :=
  x = y \/ (exists s s', x = S754_zero s /\ y = S754_zero s').

(** [+0], the positive finite numbers and [+Infinity]. *)
Definition nonneg (x : number) : bool :=
  match x with
  | S754_zero false | S754_finite false _ _ | S754_infinity false => true
  | _ => false
  end.

End Number.
Export Number.

(** ** JS strings over Latin-1 code units *)

Module Str.

Definition code (c : ascii) : N := N_of_ascii c.

(** WhiteSpace and LineTerminator code units below U+0100. *)
Definition is_space (c : ascii) : bool :=
  let n := code c in
  ((9 <=? n) && (n <=? 13) || (n =? 32) || (n =? 160))%N.

Definition lower_char (c : ascii) : ascii :=
  let n := code c in
  if ((65 <=? n) && (n <=? 90)
      || (192 <=? n) && (n <=? 222) && negb (n =? 215))%N
  then ascii_of_N (n + 32) else c.

Fixpoint toLowerCase (s : string) : string :=
  match s with
  | EmptyString => EmptyString
  | String c s' => String (lower_char c) (toLowerCase s')
  end.

(** [s.includes(sub)] *)
Fixpoint includes (s sub : string) : bool :=
  String.prefix sub s ||
  match s with
  | EmptyString => false
  | String _ s' => includes s' sub
  end.

Fixpoint trimStart (s : string) : string :=
  match s with
  | String c s' => if is_space c then trimStart s' else s
  | EmptyString => EmptyString
  end.

(** Drops trailing white space; [None] stands for an all-blank suffix. *)
Fixpoint trimEnd_aux (s : string) : option string :=
  match s with
  | EmptyString => None
  | String c s' =>
      match trimEnd_aux s' with
      | Some r => Some (String c r)
      | None => if is_space c then None else Some (String c EmptyString)
      end
  end.

Definition trimEnd (s : string) : string := default EmptyString (trimEnd_aux s).

Definition trim (s : string) : string := trimEnd (trimStart s).

(** [s.split(sep)] for a one-character separator: never empty. *)
Fixpoint split (sep : ascii) (s : string) : list string :=
  match s with
  | EmptyString => [EmptyString]
  | String c s' =>
      if Ascii.eqb c sep then EmptyString :: split sep s'
      else match split sep s' with
           | w :: ws => String c w :: ws
           | [] => [String c EmptyString]
           end
  end.

End Str.

(** ** [parseFloat] (ECMAScript 19.2.4) *)

Module ParseFloat.

Definition is_digit (c : ascii) : bool :=
  let n := Str.code c in ((48 <=? n) && (n <=? 57))%N.

Definition digit_of (c : ascii) : option Z :=
  if is_digit c then Some (Z.of_N (Str.code c) - 48) else None.

(** Reads DecimalDigits: the value accumulated on [acc], the number of
    digits read, and the rest of the text. *)
Fixpoint read_digits (acc : Z) (n : nat) (s : string) : Z * nat * string :=
  match s with
  | String c s' =>
      match digit_of c with
      | Some d => read_digits (10 * acc + d) (S n) s'
      | None => (acc, n, s)
      end
  | EmptyString => (acc, n, s)
  end.

(** One optional sign: whether it is a minus, and the rest. *)
Definition read_sign (s : string) : bool * string :=
  match s with
  | String c r =>
      if Ascii.eqb c "+" then (false, r)
      else if Ascii.eqb c "-" then (true, r)
      else (false, s)
  | EmptyString => (false, s)
  end.

(** The text after a leading character [c], if it leads. *)
Definition after (c : ascii) (s : string) : option string :=
  match s with
  | String c' r => if Ascii.eqb c' c then Some r else None
  | EmptyString => None
  end.

(** ExponentPart, when the text starts with a complete one. *)
Definition read_exponent (s : string) : Z :=
  match (match after "e" s with Some r => Some r | None => after "E" s end) with
  | Some r =>
      let '(neg, r') := read_sign r in
      let '(v, n, _) := read_digits 0 0 r' in
      match n with
      | O => 0
      | S _ => if (neg : bool) then - v else v
      end
  | None => 0
  end.

(** The longest prefix that is a StrUnsignedDecimalLiteral other than
    [Infinity], as mantissa digits and decimal exponent; [None] when
    there is none. *)
Definition read_unsigned (s : string) : option (Z * Z) :=
  let '(v1, n1, r1) := read_digits 0 0 s in
  match after "." r1 with
  | Some r =>
      let '(v2, n2, r2) := read_digits v1 0 r in
      match n1, n2 with
      | O, O => None
      | _, _ => Some (v2, read_exponent r2 - Z.of_nat n2)
      end
  | None =>
      match n1 with
      | O => None
      | S _ => Some (v1, read_exponent r1)
      end
  end.

Definition read_literal (neg : bool) (s : string) : number :=
  if String.prefix "Infinity" s then S754_infinity neg
  else match read_unsigned s with
       | Some (m, e) => of_decimal neg m e
       | None => NaN
       end.

Definition parseFloat (s : string) : number :=
  let '(neg, unsigned) := read_sign (Str.trimStart s) in
  read_literal neg unsigned.

End ParseFloat.
Export ParseFloat.

(** ** JS values produced by [JSON.parse] *)

Inductive json : Type :=
| JNull
| JBool (b : bool)
| JNum (x : number)
| JStr (s : string)
| JArr (items : list json)
| JObj (props : list (string * json)).

(** A computation that may throw; every throw of the decoders is caught by
    one handler, so the exception carries no payload. *)
Inductive completion (A : Type) : Type :=
| Normal (a : A)
| Throw.
Arguments Normal {A} a.
Arguments Throw {A}.

Definition bind {A B} (k : A -> completion B) (c : completion A) : completion B :=
  match c with
  | Normal a => k a
  | Throw => Throw
  end.

#[global] Instance completion_bind : MBind completion := @bind.
#[global] Instance completion_ret : MRet completion := @Normal.

Module Json.

(** ToBoolean *)
Definition truthy (v : json) : bool :=
  match v with
  | JNull => false
  | JBool b => b
  | JNum x => Number.truthy x
  | JStr s => negb (String.eqb s "")
  | JArr _ | JObj _ => true
  end.

(** [v || d], where [None] is [undefined]. *)
Definition or_else (v : option json) (d : json) : json :=
  match v with
  | Some x => if truthy x then x else d
  | None => d
  end.

(** The own property [key] of an object literal; a repeated key keeps
    its last value. *)
Fixpoint own (props : list (string * json)) (key : string) : option json :=
  match props with
  | [] => None
  | (k, v) :: rest =>
      match own rest key with
      | Some w => Some w
      | None => if String.eqb k key then Some v else None
      end
  end.

(** [item.key] for a [key] that no prototype defines ([Date],
    [Description], [Amount]): a TypeError on [null], the own property of
    an object, [undefined] on everything else. *)
Definition get (item : json) (key : string) : completion (option json) :=
  match item with
  | JNull => Throw
  | JObj props => Normal (own props key)
  | _ => Normal None
  end.

Section ToString.
(** Number::toString is taken from the host. *)
Variable Number_toString : number -> string.

(** ToString.  An object with an own (hence non-callable) [toString]
    has no primitive value and throws a TypeError; [Array.prototype.join]
    prints [null] elements as the empty string. *)
Fixpoint toString (v : json) : completion string :=
  match v with
  | JNull => Normal "null"
  | JBool b => Normal (if b then "true" else "false")
  | JNum x => Normal (Number_toString x)
  | JStr s => Normal s
  | JArr items =>
      (fix join (l : list json) : completion string :=
         match l with
         | [] => Normal ""
         | x :: l' =>
             s ← match x with JNull => Normal "" | _ => toString x end;
             match l' with
             | [] => Normal s
             | _ => r ← join l'; Normal (s +:+ "," +:+ r)
             end
         end) items
  | JObj props =>
      match own props "toString" with
      | Some _ => Throw
      | None => Normal "[object Object]"
      end
  end.
End ToString.

End Json.

(** ** Import decoder *)

(** [Omit<Transaction, 'id' | 'category' | 'account'>] as the decoders
    really build it: [parseYNAB] reads its fields from an [any], so [date]
    and [description] hold whatever value the JSON text had. *)
Module Parsed.
Record t : Type := mk { date : json; description : json; amount : number }.
End Parsed.

Definition LF : ascii := ascii_of_N 10.

Fixpoint mapM {A B} (f : A -> completion B) (l : list A) : completion (list B) :=
  match l with
  | [] => Normal []
  | x :: l' => y ← f x; ys ← mapM f l'; Normal (y :: ys)
  end.

(** [obj.key || d] on the row object of [parseCSV]; a header beyond the
    row's values stores [undefined]. *)
Definition field_or (obj : gmap string (option string)) (key d : string) : string :=
  match obj !! key with
  | Some (Some s) => if String.eqb s "" then d else s
  | _ => d
  end.

Definition parseCSV_row (headers : list string) (line : string) : Parsed.t :=
  let values := map Str.trim (Str.split "," line) in
  let obj : gmap string (option string) :=
    fold_left (fun obj '(index, header) => <[header := values !! index]> obj)
              (imap pair headers) ∅ in
  let date := field_or obj "Date" "" in
  let description := field_or obj "Description" "" in
  let amount := parseFloat (field_or obj "Amount" "0") in
  Parsed.mk (JStr date) (JStr description) amount.

Definition parseCSV (text : string) : list Parsed.t :=
  let lines := Str.split LF (Str.trim text) in
  let headers := map Str.trim (Str.split "," (hd "" lines)) in
  map (parseCSV_row headers) (tl lines).

Inductive FileType : Set := csv | ynab | text.

Definition keep (transaction : Parsed.t) : bool :=
  if negb (Json.truthy (Parsed.date transaction)) then false
  else if isNaN (Parsed.amount transaction) then false
  else true.

Section Host.
(** [JSON.parse]: [None] when it throws a SyntaxError. *)
Variable JSON_parse : string -> option json.
Variable Number_toString : number -> string.

Definition parseYNAB_item (item : json) : completion Parsed.t :=
  d ← Json.get item "Date";
  let date := Json.or_else d (JStr "") in
  ds ← Json.get item "Description";
  let description := Json.or_else ds (JStr "") in
  a ← Json.get item "Amount";
  s ← Json.toString Number_toString (Json.or_else a (JStr "0"));
  Normal (Parsed.mk date description (parseFloat s)).

(** The body of the [try] block. *)
Definition parseYNAB_try (text : string) : completion (list Parsed.t) :=
  match JSON_parse text with
  | None => Throw
  | Some (JArr data) => mapM parseYNAB_item data
  | Some _ => Normal []
  end.

Definition parseYNAB (text : string) : list Parsed.t :=
  match parseYNAB_try text with
  | Normal records => records
  | Throw => []
  end.

(** [handleImport], from the text the reader delivers to the batch it
    hands to [onImportTransactions]. *)
Definition parsedTransactions (fileType : FileType) (result : string) : list Parsed.t :=
  match fileType with
  | csv => parseCSV result
  | ynab => parseYNAB result
  | text => parseCSV result
  end.

Definition validatedTransactions (fileType : FileType) (result : string) : list Parsed.t :=
  List.filter keep (parsedTransactions fileType result).
End Host.

(** ** Categorizer *)

Definition categorizeTransaction (description : string) : string :=
  let lowerCaseDescription := Str.toLowerCase description in
  if Str.includes lowerCaseDescription "grocery" then "Food & Dining"
  else if Str.includes lowerCaseDescription "restaurant" then "Food & Dining"
  else if Str.includes lowerCaseDescription "rent" then "Housing"
  else if Str.includes lowerCaseDescription "mortgage" then "Housing"
  else if Str.includes lowerCaseDescription "fuel"
          || Str.includes lowerCaseDescription "gas" then "Transportation"
  else if Str.includes lowerCaseDescription "electricity"
          || Str.includes lowerCaseDescription "water" then "Utilities"
  else if Str.includes lowerCaseDescription "amazon"
          || Str.includes lowerCaseDescription "ebay" then "Shopping"
  else if Str.includes lowerCaseDescription "salary"
          || Str.includes lowerCaseDescription "paycheck" then "Income"
  else if Str.includes lowerCaseDescription "netflix"
          || Str.includes lowerCaseDescription "hulu" then "Entertainment"
  else "Other".

(** The categorizer as the specification words it: an ordered table of
    keyword alternatives, matched as case-insensitive substrings, the first
    matching rule giving the label and ["Other"] the default. *)
Module RuleTable.

Definition rules : list (list string * string) :=
  [ (["grocery"; "restaurant"], "Food & Dining");
    (["rent"; "mortgage"], "Housing");
    (["fuel"; "gas"], "Transportation");
    (["electricity"; "water"], "Utilities");
    (["amazon"; "ebay"], "Shopping");
    (["salary"; "paycheck"], "Income");
    (["netflix"; "hulu"], "Entertainment") ].

Definition contains_nocase (description keyword : string) : bool :=
  Str.includes (Str.toLowerCase description) (Str.toLowerCase keyword).

Fixpoint first_match (table : list (list string * string))
         (description : string) : string :=
  match table with
  | [] => "Other"
  | (keywords, label) :: rest =>
      if existsb (contains_nocase description) keywords then label
      else first_match rest description
  end.

End RuleTable.

(** ** Ledger and accounts *)

Module Transaction.
Record t : Type := mk {
  id : string;
  date : string;
  description : string;
  category : string;
  amount : number;
  account : string }.
End Transaction.

(** [Omit<Transaction, 'id'>] *)
Module NewTransaction.
Record t : Type := mk {
  date : string;
  description : string;
  category : string;
  amount : number;
  account : string }.
End NewTransaction.

(** [Partial<Omit<Transaction, 'id'>>]: [None] is a key the object lacks. *)
Module Updates.
Record t : Type := mk {
  date : option string;
  description : option string;
  category : option string;
  amount : option number;
  account : option string }.
End Updates.

Inductive AccountType : Set := checking | savings | credit.

Module Account.
Record t : Type := mk {
  id : string;
  name : string;
  type : AccountType;
  balance : number }.

(** [{ ...account, balance: b }] *)
Definition with_balance (account : t) (b : number) : t :=
  mk (id account) (name account) (type account) b.

(** The same account with a balance that [===] cannot tell apart. *)
Definition same (a a' : t) : Prop :=
  id a' = id a /\ name a' = name a /\ type a' = type a
  /\ same_value_zero (balance a') (balance a).
End Account.

Record AppState : Type := mkState {
  transactions : list Transaction.t;
  accounts : list Account.t }.

(** The three accounts seeded at first launch: 1234.56, 5678.90, -500.00. *)
Definition seed_accounts : list Account.t :=
  [ Account.mk "checking1" "Checking Account 1" checking
      (S754_finite false 5429652300748554 (-42));
    Account.mk "savings1" "Savings Account 1" savings
      (S754_finite false 6244016582977126 (-40));
    Account.mk "credit1" "Credit Card 1" credit
      (S754_finite true 8796093022208000 (-44)) ].

Definition initial : AppState := mkState [] seed_accounts.

(** [transactions.find(t => t.id === id)] *)
Definition find_by_id (l : list Transaction.t) (id : string) : option Transaction.t :=
  List.find (fun t => String.eqb (Transaction.id t) id) l.

Definition addTransaction (uuid : string) (transaction : NewTransaction.t)
           (st : AppState) : AppState :=
  let newTransaction :=
    Transaction.mk uuid
      (NewTransaction.date transaction) (NewTransaction.description transaction)
      (NewTransaction.category transaction) (NewTransaction.amount transaction)
      (NewTransaction.account transaction) in
  mkState
    (transactions st ++ [newTransaction])
    (map (fun account =>
            if String.eqb (Account.id account) (Transaction.account newTransaction)
            then Account.with_balance account
                   (add (Account.balance account) (Transaction.amount newTransaction))
            else account)
         (accounts st)).

(** [importTransactions] on a batch of its declared type, where every
    description is a string; [Runtime.importTransactions] below is the call
    on the records the decoders deliver.  [uuid i] is the id drawn for the
    [i]-th record of the batch. *)
Definition importTransactions (uuid : nat -> string)
           (newTransactions : list NewTransaction.t) (accountId : string)
           (st : AppState) : AppState :=
  let transactionsWithIds :=
    imap (fun i t =>
            Transaction.mk (uuid i)
              (NewTransaction.date t) (NewTransaction.description t)
              (categorizeTransaction (NewTransaction.description t))
              (NewTransaction.amount t) accountId)
         newTransactions in
  mkState
    (transactions st ++ transactionsWithIds)
    (map (fun account =>
            if String.eqb (Account.id account) accountId
            then
              let totalAmount :=
                fold_left (fun sum t => add sum (NewTransaction.amount t))
                          newTransactions zero in
              Account.with_balance account (add (Account.balance account) totalAmount)
            else account)
         (accounts st)).

Definition deleteTransaction (id : string) (st : AppState) : AppState :=
  match find_by_id (transactions st) id with
  | None => st
  | Some transactionToDelete =>
      mkState
        (List.filter (fun transaction => negb (String.eqb (Transaction.id transaction) id))
                     (transactions st))
        (map (fun account =>
                if String.eqb (Account.id account) (Transaction.account transactionToDelete)
                then Account.with_balance account
                       (sub (Account.balance account) (Transaction.amount transactionToDelete))
                else account)
             (accounts st))
  end.

(** [{ ...transaction, ...updates }] *)
Definition spread (transaction : Transaction.t) (updates : Updates.t) : Transaction.t :=
  Transaction.mk
    (Transaction.id transaction)
    (default (Transaction.date transaction) (Updates.date updates))
    (default (Transaction.description transaction) (Updates.description updates))
    (default (Transaction.category transaction) (Updates.category updates))
    (default (Transaction.amount transaction) (Updates.amount updates))
    (default (Transaction.account transaction) (Updates.account updates)).

(** The updater passed to [setTransactions].  It also computes
    [amountDifference] and [newAccountId], which nothing reads. *)
Definition updateTransaction_transactions (id : string) (updates : Updates.t)
           (prevTransactions : list Transaction.t) : list Transaction.t :=
  map (fun transaction =>
         if String.eqb (Transaction.id transaction) id then
           let originalAmount := Transaction.amount transaction in
           let originalAccountId := Transaction.account transaction in
           let updatedTransaction := spread transaction updates in
           let newAmount :=
             match Updates.amount updates with
             | Some a => a
             | None => Transaction.amount transaction
             end in
           let amountDifference := sub newAmount originalAmount in
           let newAccountId :=
             match Updates.account updates with
             | Some a => if String.eqb a "" then originalAccountId else a
             | None => originalAccountId
             end in
           updatedTransaction
         else transaction)
      prevTransactions.

(** The updater passed to [setAccounts]; [transactions] is the list the
    callback closed over, which the first updater has not touched. *)
Definition updateTransaction_accounts (id : string)
           (transactions : list Transaction.t)
           (prevAccounts : list Account.t) : list Account.t :=
  map (fun account =>
         match find_by_id transactions id with
         | None => account
         | Some originalTransaction =>
             let updatedTransaction := find_by_id transactions id in
             if String.eqb (Account.id account) (Transaction.account originalTransaction)
             then
               let amountDifference :=
                 match updatedTransaction with
                 | Some u => sub (Transaction.amount u) (Transaction.amount originalTransaction)
                 | None => zero
                 end in
               Account.with_balance account (add (Account.balance account) amountDifference)
             else
               match updatedTransaction with
               | Some u =>
                   if String.eqb (Account.id account) (Transaction.account u)
                   then Account.with_balance account
                          (add (Account.balance account)
                               (sub (Transaction.amount u)
                                    (Transaction.amount originalTransaction)))
                   else account
               | None => account
               end
         end)
      prevAccounts.

Definition updateTransaction (id : string) (updates : Updates.t)
           (st : AppState) : AppState :=
  mkState
    (updateTransaction_transactions id updates (transactions st))
    (updateTransaction_accounts id (transactions st) (accounts st)).

(** Sequences of ledger operations. *)
Inductive Op : Type :=
| OpAdd (uuid : string) (transaction : NewTransaction.t)
| OpUpdate (id : string) (updates : Updates.t)
| OpDelete (id : string).

Definition step (st : AppState) (op : Op) : AppState :=
  match op with
  | OpAdd uuid transaction => addTransaction uuid transaction st
  | OpUpdate id updates => updateTransaction id updates st
  | OpDelete id => deleteTransaction id st
  end.

Definition run (ops : list Op) (st : AppState) : AppState := fold_left step ops st.

(** The reconciliation invariant of the specification. *)
Module Reconciliation.

(** Sum, in ledger order, of the amounts attributed to an account. *)
Definition attributed (l : list Transaction.t) (accountId : string) : number :=
  fold_left (fun sum t => add sum (Transaction.amount t))
            (List.filter (fun t => String.eqb (Transaction.account t) accountId) l)
            zero.

(** Sum of a batch's amounts, left to right from [0]. *)
Definition batch_total (batch : list NewTransaction.t) : number :=
  fold_left (fun sum t => add sum (NewTransaction.amount t)) batch zero.

Definition seed_balance (accountId : string) : option number :=
  Account.balance <$>
    List.find (fun a => String.eqb (Account.id a) accountId) seed_accounts.

(** What the specification asks of an update that turns [old] into
    [new]: the delta [new_amount - old_amount] goes to the new account
    and, when the account changed, the old amount leaves the old one. *)
Definition expected_balance (old new : Transaction.t) (a : Account.t) : number :=
  let credited :=
    if String.eqb (Account.id a) (Transaction.account new)
    then add (Account.balance a)
             (sub (Transaction.amount new) (Transaction.amount old))
    else Account.balance a in
  if negb (String.eqb (Transaction.account old) (Transaction.account new))
     && String.eqb (Account.id a) (Transaction.account old)
  then sub credited (Transaction.amount old)
  else credited.

Definition delta_applied (old new : Transaction.t)
           (before after : list Account.t) : Prop :=
  Forall2 (fun a a' => Account.balance a' = expected_balance old new a)
          before after.

Definition reconciled (st : AppState) : Prop :=
  Forall (fun a =>
            seed_balance (Account.id a) <> None /\
            forall seed, seed_balance (Account.id a) = Some seed ->
              Account.balance a = add seed (attributed (transactions st) (Account.id a)))
         (accounts st).

End Reconciliation.

(** Sample inputs: a 10 purchase entered on the credit card, and the edit
    form saved with the amount changed to 20, with the account changed to
    the checking account, and with the amount field cleared (the number
    input then reports NaN). *)
Module Sample.

Definition purchase : NewTransaction.t :=
  NewTransaction.mk "2024-01-05" "Coffee" "Food & Dining" (of_Z 10) "credit1".

(** The form of [startEditing] with new amount and account. *)
Definition edit (a : number) (accountId : string) : Updates.t :=
  Updates.mk (Some "2024-01-05") (Some "Coffee") (Some "Food & Dining")
             (Some a) (Some accountId).

Definition entered : AppState := run [OpAdd "t1" purchase] initial.

Definition cleared : AppState :=
  run [OpAdd "t1" purchase; OpUpdate "t1" (edit NaN "credit1")] initial.

(** The purchase as the ledger holds it with amount [a] on [accountId]. *)
Definition recorded (a : number) (accountId : string) : Transaction.t :=
  Transaction.mk "t1" "2024-01-05" "Coffee" "Food & Dining" a accountId.

Definition saved (a : number) (accountId : string) : AppState :=
  updateTransaction "t1" (edit a accountId) entered.

End Sample.

(** ** Dashboard aggregation *)

Section Scope.
(** [new Date(s).getMonth()] and [.getFullYear()]; [None] is the NaN of
    an invalid date. *)
Variables getMonth getFullYear : string -> option Z.
Variables selectedMonth selectedYear : Z.

Definition filteredTransactions (transactions : list Transaction.t)
  : list Transaction.t :=
  List.filter
    (fun t =>
       bool_decide (getMonth (Transaction.date t) = Some selectedMonth)
       && bool_decide (getFullYear (Transaction.date t) = Some selectedYear))
    transactions.
End Scope.

Module Dashboard.

Definition income (filteredTransactions : list Transaction.t) : number :=
  fold_left (fun sum t => add sum (Transaction.amount t))
            (List.filter (fun t => gt (Transaction.amount t) zero) filteredTransactions)
            zero.

Definition expenses (filteredTransactions : list Transaction.t) : number :=
  fold_left (fun sum t => add sum (Transaction.amount t))
            (List.filter (fun t => lt (Transaction.amount t) zero) filteredTransactions)
            zero.

Definition netBalance (filteredTransactions : list Transaction.t) : number :=
  add (income filteredTransactions) (expenses filteredTransactions).

(** [acc[category] || 0] *)
Definition or_zero (v : option number) : number :=
  match v with
  | Some x => if Number.truthy x then x else zero
  | None => zero
  end.

(** The accumulator object is a map from its own keys.  That is the JS
    behaviour for every key that [Object.prototype] does not define; see
    [plain_key]. *)
Definition categoryTotals (filteredTransactions : list Transaction.t)
  : gmap string number :=
  fold_left
    (fun acc t =>
       let category := Transaction.category t in
       <[category :=
           add (or_zero (acc !! category))
               (if lt (Transaction.amount t) zero
                then abs (Transaction.amount t) else zero)]> acc)
    filteredTransactions ∅.

(** The property names an empty object literal inherits. *)
Definition inherited_keys : list string :=
  [ "constructor"; "hasOwnProperty"; "isPrototypeOf"; "propertyIsEnumerable";
    "toLocaleString"; "toString"; "valueOf"; "__proto__";
    "__defineGetter__"; "__defineSetter__"; "__lookupGetter__"; "__lookupSetter__" ].

Definition plain_key (k : string) : Prop := ~ In k inherited_keys.

(** The category breakdown in the specification's words: the sum of
    [abs(amount)] over the transactions of category [c] with a negative
    amount, in ledger order from [0]. *)
Definition spent (filteredTransactions : list Transaction.t) (c : string) : number :=
  fold_left (fun sum t => add sum (abs (Transaction.amount t)))
            (List.filter
               (fun t => String.eqb (Transaction.category t) c
                         && lt (Transaction.amount t) zero)
               filteredTransactions)
            zero.

Definition has_category (filteredTransactions : list Transaction.t) (c : string) : bool :=
  existsb (fun t => String.eqb (Transaction.category t) c) filteredTransactions.

(** The month of the specification's example. *)
Definition example_month : list Transaction.t :=
  [ Transaction.mk "t1" "2024-01-01" "Salary" "income" (of_Z 1000) "checking1";
    Transaction.mk "t2" "2024-01-02" "Market" "Food" (of_Z (-200)) "checking1";
    Transaction.mk "t3" "2024-01-03" "Bakery" "Food" (of_Z (-50)) "checking1" ].

End Dashboard.

(** ** A host for running the decoders

    [JSON.parse] and Number::toString of ECMAScript, on texts whose string
    literals stay within Latin-1 (a [\u] escape above U+00FF is rejected).
    The theorems quantify over the host; this one instantiates them. *)

Module SampleHost.

Definition dquote : ascii := ascii_of_N 34.
Definition backslash : ascii := ascii_of_N 92.

Definition is_ws (c : ascii) : bool :=
  let n := Str.code c in ((n =? 32) || (n =? 9) || (n =? 10) || (n =? 13))%N.

Fixpoint skip_ws (s : string) : string :=
  match s with
  | String c r => if is_ws c then skip_ws r else s
  | EmptyString => s
  end.

Fixpoint drop_prefix (p s : string) : option string :=
  match p, s with
  | EmptyString, _ => Some s
  | String a p', String b s' => if Ascii.eqb a b then drop_prefix p' s' else None
  | String _ _, EmptyString => None
  end.

Definition hex_of (c : ascii) : option N :=
  let n := Str.code c in
  if ((48 <=? n) && (n <=? 57))%N then Some (n - 48)%N
  else if ((65 <=? n) && (n <=? 70))%N then Some (n - 55)%N
  else if ((97 <=? n) && (n <=? 102))%N then Some (n - 87)%N
  else None.

Definition unescape (c : ascii) : option ascii :=
  if Ascii.eqb c dquote then Some dquote
  else if Ascii.eqb c backslash then Some backslash
  else if Ascii.eqb c "/" then Some "/"%char
  else if Ascii.eqb c "b" then Some (ascii_of_N 8)
  else if Ascii.eqb c "f" then Some (ascii_of_N 12)
  else if Ascii.eqb c "n" then Some (ascii_of_N 10)
  else if Ascii.eqb c "r" then Some (ascii_of_N 13)
  else if Ascii.eqb c "t" then Some (ascii_of_N 9)
  else None.

(** A string literal after its opening quote: contents and rest. *)
Fixpoint read_string (s : string) : option (string * string) :=
  match s with
  | EmptyString => None
  | String c r =>
      if Ascii.eqb c dquote then Some (EmptyString, r)
      else if Ascii.eqb c backslash then
        match r with
        | String e r' =>
            if Ascii.eqb e "u" then
              match r' with
              | String h1 (String h2 (String h3 (String h4 r''))) =>
                  match hex_of h1, hex_of h2, hex_of h3, hex_of h4 with
                  | Some a, Some b, Some c', Some d =>
                      let n := (((a * 16 + b) * 16 + c') * 16 + d)%N in
                      if (n <? 256)%N then
                        match read_string r'' with
                        | Some (t, rest) => Some (String (ascii_of_N n) t, rest)
                        | None => None
                        end
                      else None
                  | _, _, _, _ => None
                  end
              | _ => None
              end
            else
              match unescape e, read_string r' with
              | Some c', Some (t, rest) => Some (String c' t, rest)
              | _, _ => None
              end
        | EmptyString => None
        end
      else if (Str.code c <? 32)%N then None
      else
        match read_string r with
        | Some (t, rest) => Some (String c t, rest)
        | None => None
        end
  end.

(** A JSON number: value and rest. *)
Definition read_number (s : string) : option (number * string) :=
  let '(neg, s1) :=
    match after "-" s with Some r => (true, r) | None => (false, s) end in
  let '(v1, n1, r1) := read_digits 0 0 s1 in
  match n1, after "0" s1 with
  | O, _ => None
  | S (S _), Some _ => None
  | _, _ =>
      let fraction :=
        match after "." r1 with
        | Some r =>
            let '(v2, n2, r2) := read_digits v1 0 r in
            match n2 with O => None | S _ => Some (v2, n2, r2) end
        | None => Some (v1, O, r1)
        end in
      match fraction with
      | None => None
      | Some (v2, n2, r2) =>
          match (match after "e" r2 with Some r => Some r | None => after "E" r2 end) with
          | Some r =>
              let '(eneg, r') := read_sign r in
              let '(ve, ne, r3) := read_digits 0 0 r' in
              match ne with
              | O => None
              | S _ =>
                  Some (of_decimal neg v2
                          ((if (eneg : bool) then - ve else ve) - Z.of_nat n2), r3)
              end
          | None => Some (of_decimal neg v2 (- Z.of_nat n2), r2)
          end
      end
  end.

Inductive mode : Set := Value | Elements | Members.

(** One value; or the elements of an array up to its bracket; or the
    members of an object up to its brace. *)
Fixpoint parse (fuel : nat) (m : mode) (s : string) : option (json * string) :=
  match fuel with
  | O => None
  | S fuel =>
      let s := skip_ws s in
      match m with
      | Value =>
          match s with
          | EmptyString => None
          | String c r =>
              if Ascii.eqb c "[" then
                match after "]" (skip_ws r) with
                | Some r' => Some (JArr [], r')
                | None => parse fuel Elements r
                end
              else if Ascii.eqb c "{" then
                match after "}" (skip_ws r) with
                | Some r' => Some (JObj [], r')
                | None => parse fuel Members r
                end
              else if Ascii.eqb c dquote then
                match read_string r with
                | Some (t, r') => Some (JStr t, r')
                | None => None
                end
              else
                match drop_prefix "null" s, drop_prefix "true" s,
                      drop_prefix "false" s with
                | Some r', _, _ => Some (JNull, r')
                | _, Some r', _ => Some (JBool true, r')
                | _, _, Some r' => Some (JBool false, r')
                | None, None, None =>
                    match read_number s with
                    | Some (x, r') => Some (JNum x, r')
                    | None => None
                    end
                end
          end
      | Elements =>
          match parse fuel Value s with
          | Some (v, r) =>
              let r := skip_ws r in
              match after "," r, after "]" r with
              | Some r', _ =>
                  match parse fuel Elements r' with
                  | Some (JArr vs, r'') => Some (JArr (v :: vs), r'')
                  | _ => None
                  end
              | None, Some r' => Some (JArr [v], r')
              | None, None => None
              end
          | None => None
          end
      | Members =>
          match after dquote s with
          | Some r =>
              match read_string r with
              | Some (k, r1) =>
                  match after ":" (skip_ws r1) with
                  | Some r2 =>
                      match parse fuel Value r2 with
                      | Some (v, r3) =>
                          let r3 := skip_ws r3 in
                          match after "," r3, after "}" r3 with
                          | Some r4, _ =>
                              match parse fuel Members r4 with
                              | Some (JObj ps, r5) => Some (JObj ((k, v) :: ps), r5)
                              | _ => None
                              end
                          | None, Some r4 => Some (JObj [(k, v)], r4)
                          | None, None => None
                          end
                      | None => None
                      end
                  | None => None
                  end
              | None => None
              end
          | None => None
          end
      end
  end.

Definition JSON_parse (s : string) : option json :=
  match parse (2 * String.length s + 2) Value s with
  | Some (v, r) => if String.eqb (skip_ws r) "" then Some v else None
  | None => None
  end.

(** *** Number::toString, radix 10 *)

Local Open Scope Z_scope.

Definition digit_char (d : Z) : ascii := ascii_of_N (Z.to_N (48 + d)).

(** The decimal digits of [n >= 0], prepended to [acc]. *)
Fixpoint decimal_aux (fuel : nat) (n : Z) (acc : string) : string :=
  match fuel with
  | O => acc
  | S fuel =>
      let acc := String (digit_char (n mod 10)) acc in
      if n <? 10 then acc else decimal_aux fuel (n / 10) acc
  end.

Definition decimal (n : Z) : string := decimal_aux 400 n EmptyString.

Fixpoint zeros (n : nat) : string :=
  match n with O => EmptyString | S n => String "0" (zeros n) end.

(** [floor (num / den * 10^p)] and twice the remainder against the
    divisor, to compare the fraction with one half. *)
Definition scaled (num den p : Z) : Z * comparison :=
  let '(a, b) := if 0 <=? p then (num * 10 ^ p, den) else (num, den * 10 ^ (- p)) in
  (a / b, (2 * (a mod b) ?= b)).

(** The least [n] with [num / den < 10^n], searched upwards from [n]. *)
Fixpoint exponent_from (fuel : nat) (num den n : Z) : Z :=
  match fuel with
  | O => n
  | S fuel =>
      if (if 0 <=? n then num <? den * 10 ^ n else num * 10 ^ (- n) <? den)
      then n else exponent_from fuel num den (n + 1)
  end.

(** Whether the decimal [s * 10^p] rounds to [m * 2^e]. *)
Definition reads_back (s p : Z) (m : positive) (e : Z) : bool :=
  match of_decimal false s p with
  | S754_finite false m' e' => Pos.eqb m' m && Z.eqb e' e
  | _ => false
  end.

(** The digits [s], their number [k] and the exponent [n] of the
    shortest decimal [s * 10^(n-k)] that reads back as [m * 2^e]. *)
Fixpoint shortest (fuel : nat) (k : Z) (m : positive) (e : Z) (num den n : Z)
  : Z * Z * Z :=
  let '(lo, half) := scaled num den (k - n) in
  let ok_lo := reads_back lo (n - k) m e in
  let ok_hi := reads_back (lo + 1) (n - k) m e in
  let pick_hi :=
    ok_hi && (negb ok_lo
              || match half with Gt => true | Eq => Z.odd lo | Lt => false end) in
  match fuel with
  | O => (lo, k, n)
  | S fuel =>
      if pick_hi then
        if lo + 1 =? 10 ^ k then (10 ^ (k - 1), k, n + 1) else (lo + 1, k, n)
      else if ok_lo then (lo, k, n)
      else shortest fuel (k + 1) m e num den n
  end.

Definition print_positive (m : positive) (e : Z) : string :=
  let num := if 0 <=? e then Z.pos m * 2 ^ e else Z.pos m in
  let den := if 0 <=? e then 1 else 2 ^ (- e) in
  let n0 := exponent_from 700 num den (-330) in
  let '(s, k, n) := shortest 20 1 m e num den n0 in
  let digits := decimal s in
  if (k <=? n) && (n <=? 21) then digits +:+ zeros (Z.to_nat (n - k))
  else if (0 <? n) && (n <=? 21) then
    String.substring 0 (Z.to_nat n) digits +:+ "."
    +:+ String.substring (Z.to_nat n) (Z.to_nat (k - n)) digits
  else if (-6 <? n) && (n <=? 0) then "0." +:+ zeros (Z.to_nat (- n)) +:+ digits
  else
    let mantissa :=
      if k =? 1 then digits
      else String.substring 0 1 digits +:+ "."
           +:+ String.substring 1 (Z.to_nat (k - 1)) digits in
    mantissa +:+ "e" +:+ (if n - 1 <? 0 then "-" else "+") +:+ decimal (Z.abs (n - 1)).

Definition Number_toString (x : number) : string :=
  match x with
  | S754_nan => "NaN"
  | S754_zero _ => "0"
  | S754_infinity s => if s then "-Infinity" else "Infinity"
  | S754_finite s m e => (if s then "-" else "") +:+ print_positive m e
  end.

End SampleHost.

(** ** Vocabulary of the import claims *)

Module ImportSpec.

(** The empty string, the only falsy [date] a decoder produces. *)
Definition date_is_empty (v : json) : bool :=
  match v with
  | JStr s => String.eqb s ""
  | _ => false
  end.

(** The records the validation drops, as the code decides it. *)
Definition rejected (r : Parsed.t) : bool :=
  date_is_empty (Parsed.date r) || isNaN (Parsed.amount r).

(** A record is well decoded when its [date] is truthy or the empty
    string, as both decoders arrange with [|| '']. *)
Definition decoded (r : Parsed.t) : Prop :=
  negb (Json.truthy (Parsed.date r)) = date_is_empty (Parsed.date r).

(** The records the specification says are dropped: empty date, or an
    amount that is not a finite number. *)
Definition rejected_by_spec (r : Parsed.t) : bool :=
  date_is_empty (Parsed.date r) || negb (isFinite (Parsed.amount r)).

(** Position of the last header equal to [key]. *)
Fixpoint last_index (key : string) (headers : list string) : option nat :=
  match headers with
  | [] => None
  | h :: hs =>
      match last_index key hs with
      | Some j => Some (S j)
      | None => if String.eqb h key then Some 0%nat else None
      end
  end.

(** The trimmed cell of [line] under the last header named [key];
    [None] when there is no such header or the line is too short. *)
Definition cell (headers : list string) (line : string) (key : string)
  : option string :=
  match last_index key headers with
  | Some i => map Str.trim (Str.split "," line) !! i
  | None => None
  end.

Definition first_is_digit (s : string) : bool :=
  match s with
  | String c _ => is_digit c
  | EmptyString => false
  end.

(** Whether the text begins, after white space and one optional sign,
    like a decimal literal: [Infinity], a digit, or a dot and a digit. *)
Definition starts_number (s : string) : bool :=
  let '(_, unsigned) := read_sign (Str.trimStart s) in
  String.prefix "Infinity" unsigned
  || first_is_digit unsigned
  || match after "." unsigned with
     | Some r => first_is_digit r
     | None => false
     end.

(** What an amount cell decodes to: zero when it is missing or empty,
    NaN when it is text that does not start like a number, and the
    value [parseFloat] reads off its numeric prefix otherwise. *)
Definition text_amount (field : option string) : number :=
  match field with
  | Some s =>
      if String.eqb s "" then zero
      else if starts_number s then parseFloat s
      else NaN
  | None => zero
  end.

End ImportSpec.

(** ** The rest of the application *)

Definition CATEGORIES : list string :=
  [ "Food & Dining"; "Housing"; "Transportation"; "Utilities"; "Shopping";
    "Income"; "Entertainment"; "Other"; "Subscriptions"; "Travel";
    "Education"; "Healthcare" ].

(** The colour table of [getCategoryColor]; its keys are own keys, see
    [Dashboard.plain_key]. *)
Definition categoryColors : gmap string string :=
  list_to_map
    [ ("Food & Dining", "#FF6B6B"); ("Housing", "#FFD966");
      ("Transportation", "#4ECDC4"); ("Utilities", "#849324");
      ("Shopping", "#FF6B6B"); ("Income", "#00A896");
      ("Entertainment", "#9B5DE5"); ("Other", "#F15BB5");
      ("Subscriptions", "#3282B8"); ("Travel", "#F72585");
      ("Education", "#43AA8B"); ("Healthcare", "#90BE6D") ].

Definition getCategoryColor (category : string) : string :=
  match categoryColors !! category with
  | Some colour => if String.eqb colour "" then "#808080" else colour
  | None => "#808080"
  end.

(** *** Transaction input sheet *)

Module InputSheet.

(** The [amount] state: the initial [''] or the [valueAsNumber] of the
    number input. *)
Inductive AmountState : Type :=
| Blank
| Entered (x : number).

Record Form : Type := mkForm {
  date : string;
  description : string;
  amount : AmountState;
  category : string;
  account : string }.

(** [!amount] *)
Definition not_amount (a : AmountState) : bool :=
  match a with
  | Blank => true
  | Entered x => negb (Number.truthy x)
  end.

(** [Number(amount)] *)
Definition Number_of (a : AmountState) : number :=
  match a with
  | Blank => zero
  | Entered x => x
  end.

(** [handleAdd] up to the call of [onAddTransaction]: the error it sets,
    or the transaction it hands over. *)
Definition handleAdd (form : Form) : string + NewTransaction.t :=
  if String.eqb (date form) "" || String.eqb (description form) ""
     || not_amount (amount form)
     || String.eqb (category form) "" || String.eqb (account form) ""
  then inl "Please fill in all fields."
  else
    let parsedAmount := Number_of (amount form) in
    if isNaN parsedAmount then inl "Invalid amount. Please enter a number."
    else inr (NewTransaction.mk (date form) (description form) (category form)
                                parsedAmount (account form)).

(** The ledger after the Add button: [addTransaction] on success. *)
Definition submit (uuid : string) (form : Form) (st : AppState) : AppState :=
  match handleAdd form with
  | inr newTransaction => addTransaction uuid newTransaction st
  | inl _ => st
  end.

End InputSheet.

(** *** Transaction list *)

Module TransactionList.

Definition startEditing (transaction : Transaction.t) : Updates.t :=
  Updates.mk (Some (Transaction.date transaction))
             (Some (Transaction.description transaction))
             (Some (Transaction.category transaction))
             (Some (Transaction.amount transaction))
             (Some (Transaction.account transaction)).

(** [saveChanges] as wired by the application. *)
Definition saveChanges (id : string) (editedTransaction : Updates.t)
           (st : AppState) : AppState :=
  updateTransaction id editedTransaction st.

Definition getAccountName (accounts : list Account.t) (accountId : string) : string :=
  match List.find (fun acc => String.eqb (Account.id acc) accountId) accounts with
  | Some account => Account.name account
  | None => "Unknown Account"
  end.

End TransactionList.

(** *** Dashboard cards and the balances chart *)

Module Cards.

Definition monthlyIncome (filteredTransactions : list Transaction.t) : number :=
  fold_left (fun sum t => add sum (Transaction.amount t))
            (List.filter (fun t => gt (Transaction.amount t) zero) filteredTransactions)
            zero.

Definition monthlyExpenses (filteredTransactions : list Transaction.t) : number :=
  fold_left (fun sum t => add sum (abs (Transaction.amount t)))
            (List.filter (fun t => lt (Transaction.amount t) zero) filteredTransactions)
            zero.

(** The accumulator object is a map from its own keys, as for
    [Dashboard.categoryTotals]. *)
Definition accountBalances (accounts : list Account.t) : gmap string number :=
  fold_left (fun acc account => <[Account.name account := Account.balance account]> acc)
            accounts ∅.

End Cards.

(** The values a sum of negative amounts passes through. *)
Definition nonpos (x : number) : bool :=
  match x with
  | S754_zero _ | S754_finite true _ _ | S754_infinity true => true
  | _ => false
  end.

(** *** All four ledger mutations *)

Inductive Mutation : Type :=
| MAdd (uuid : string) (transaction : NewTransaction.t)
| MImport (uuid : nat -> string) (newTransactions : list NewTransaction.t)
          (accountId : string)
| MDelete (id : string)
| MUpdate (id : string) (updates : Updates.t).

Definition mutate (st : AppState) (m : Mutation) : AppState :=
  match m with
  | MAdd uuid transaction => addTransaction uuid transaction st
  | MImport uuid newTransactions accountId =>
      importTransactions uuid newTransactions accountId st
  | MDelete id => deleteTransaction id st
  | MUpdate id updates => updateTransaction id updates st
  end.

Definition replay (ms : list Mutation) (st : AppState) : AppState :=
  fold_left mutate ms st.

(** The ids a mutation draws. *)
Definition drawn (m : Mutation) : list string :=
  match m with
  | MAdd uuid _ => [uuid]
  | MImport uuid newTransactions _ => map uuid (seq 0 (length newTransactions))
  | _ => []
  end.

(** A mutation whose amounts are finite numbers (for an import, also
    their sum, which could overflow). *)
Definition finite_input (m : Mutation) : Prop :=
  match m with
  | MAdd _ transaction => isFinite (NewTransaction.amount transaction) = true
  | MImport _ newTransactions _ =>
      Forall (fun t => isFinite (NewTransaction.amount t) = true) newTransactions
      /\ isFinite (Reconciliation.batch_total newTransactions) = true
  | MDelete _ => True
  | MUpdate _ updates =>
      match Updates.amount updates with
      | Some a => isFinite a = true
      | None => True
      end
  end.

(** *** Line endings *)

Module LineEndings.

Definition CR : ascii := ascii_of_N 13.

(** The text with a carriage return put before every line feed. *)
Fixpoint crlf (s : string) : string :=
  match s with
  | EmptyString => EmptyString
  | String c s' =>
      if Ascii.eqb c LF then String CR (String LF (crlf s'))
      else String c (crlf s')
  end.

(** A character appended to the last string of a list. *)
Fixpoint snoc_last (c : ascii) (l : list string) : list string :=
  match l with
  | [] => []
  | w :: ws =>
      match ws with
      | [] => [w +:+ String c EmptyString]
      | _ => w :: snoc_last c ws
      end
  end.

(** A carriage return appended to every string but the last. *)
Fixpoint add_cr (l : list string) : list string :=
  match l with
  | [] => []
  | w :: ws =>
      match ws with
      | [] => [w]
      | _ => (w +:+ String CR EmptyString) :: add_cr ws
      end
  end.

(** How many times a character occurs in a string. *)
Fixpoint occurrences (c : ascii) (s : string) : nat :=
  match s with
  | EmptyString => 0
  | String d s' => (if Ascii.eqb d c then 1 else 0) + occurrences c s'
  end.

End LineEndings.

(** *** Delimited-text import, end to end *)

Module CsvImport.

(** The string a decoded field holds; every field of [parseCSV] is one. *)
Definition text_of (v : json) : string :=
  match v with
  | JStr s => s
  | _ => ""
  end.

(** The validated rows as [onImportTransactions] receives them.  The
    objects have no [category] and no [account]; [importTransactions] sets
    both, so the two fields are left empty here. *)
Definition batch (result : string) : list NewTransaction.t :=
  map (fun r => NewTransaction.mk (text_of (Parsed.date r))
                                  (text_of (Parsed.description r))
                                  "" (Parsed.amount r) "")
      (List.filter keep (parseCSV result)).

(** [handleImport] for the file types [csv] and [text], from the selected
    account and the text of the file to the ledger. *)
Definition handleImport (uuid : nat -> string) (selectedAccount : string)
           (result : string) (st : AppState) : AppState :=
  if String.eqb selectedAccount "" then st
  else importTransactions uuid (batch result) selectedAccount st.

End CsvImport.

(** *** Bulk import on what the decoders deliver *)

(** A validated record as [handleImport] passes it to
    [onImportTransactions].  Its description is the value the decoder
    read: a string from [parseCSV], any truthy value of the JSON text from
    the [item.Description || ''] of [parseYNAB].  The date is at the string
    type of [Transaction]; the import stores it and never looks at it. *)
Module Imported.
Record t : Type := mk { date : string; description : json; amount : number }.

(** A decoded record whose date is a string. *)
Definition of_parsed (r : Parsed.t) : option t :=
  match Parsed.date r with
  | JStr date => Some (mk date (Parsed.description r) (Parsed.amount r))
  | _ => None
  end.

(** A record of the declared type [Omit<Transaction, 'id'>]; the import
    overwrites the category and the account it carries. *)
Definition of_typed (n : NewTransaction.t) : t :=
  mk (NewTransaction.date n) (JStr (NewTransaction.description n))
     (NewTransaction.amount n).

Definition is_text (r : t) : bool :=
  match description r with
  | JStr _ => true
  | _ => false
  end.

(** [newTransactions.reduce((sum, t) => sum + t.amount, 0)] *)
Definition total (newTransactions : list t) : number :=
  fold_left (fun sum t => add sum (amount t)) newTransactions zero.
End Imported.

Module Runtime.

(** The callback of [newTransactions.map] on the record at [index].
    [categorizeTransaction] calls [description.toLowerCase()], which only a
    string has: on a number, a boolean, an array or an object the call is a
    TypeError. *)
Definition withId (uuid : nat -> string) (accountId : string)
           (index : nat) (t : Imported.t) : completion Transaction.t :=
  match Imported.description t with
  | JStr description =>
      Normal (Transaction.mk (uuid index) (Imported.date t) description
                (categorizeTransaction description) (Imported.amount t) accountId)
  | _ => Throw
  end.

Fixpoint transactionsWithIds (uuid : nat -> string) (accountId : string)
         (index : nat) (newTransactions : list Imported.t)
  : completion (list Transaction.t) :=
  match newTransactions with
  | [] => Normal []
  | t :: rest =>
      x ← withId uuid accountId index t;
      xs ← transactionsWithIds uuid accountId (S index) rest;
      Normal (x :: xs)
  end.

(** [importTransactions] as it runs: the [map] comes first, so a throw in
    it leaves before [setTransactions] and [setAccounts] are reached. *)
Definition importTransactions (uuid : nat -> string)
           (newTransactions : list Imported.t) (accountId : string)
           (st : AppState) : completion AppState :=
  transactionsWithIds ← transactionsWithIds uuid accountId 0 newTransactions;
  Normal
    (mkState
       (transactions st ++ transactionsWithIds)
       (map (fun account =>
               if String.eqb (Account.id account) accountId
               then
                 let totalAmount := Imported.total newTransactions in
                 Account.with_balance account (add (Account.balance account) totalAmount)
               else account)
            (accounts st))).

(** The state once [handleImport] is through: its [catch] reports the
    error of a throwing call and touches neither list. *)
Definition handled (call : completion AppState) (st : AppState) : AppState :=
  match call with
  | Normal st' => st'
  | Throw => st
  end.

End Runtime.

(** Sample imports. *)
Module SampleImport.

Definition quoted (s : string) : string :=
  String SampleHost.dquote (s +:+ String SampleHost.dquote EmptyString).

(** A JSON file of one item: Date 2024-01-05, Description the number 7,
    Amount 5. *)
Definition numbered : string :=
  "[{" +:+ quoted "Date" +:+ ":" +:+ quoted "2024-01-05" +:+ ","
  +:+ quoted "Description" +:+ ":7," +:+ quoted "Amount" +:+ ":5}]".

Definition coffee : Imported.t :=
  Imported.mk "2024-01-05" (JStr "Coffee") (of_Z 10).

Definition netflix : Imported.t :=
  Imported.mk "2024-02-01" (JStr "Netflix") (of_Z (-15)).

Definition seven : Imported.t :=
  Imported.mk "2024-01-05" (JNum (of_Z 7)) (of_Z 5).

End SampleImport.

(** ** A host for reading dates

    [new Date(s).getMonth()] and [.getFullYear()] of a host in the UTC
    time zone, on the calendar dates [YYYY-MM-DD] that a date input
    produces.  Any other text is an invalid date here. *)

Module SampleDates.

Definition digits (s : string) : option Z :=
  match read_digits 0 0 s with
  | (n, _, EmptyString) => Some n
  | _ => None
  end.

Definition leap (year : Z) : bool :=
  ((year mod 4 =? 0) && (negb (year mod 100 =? 0) || (year mod 400 =? 0)))%Z.

Definition days_in_month (year month : Z) : Z :=
  if (month =? 2)%Z then (if leap year then 29 else 28)
  else if ((month =? 4) || (month =? 6) || (month =? 9) || (month =? 11))%Z then 30
  else 31.

(** Year, month (from 1) and day of a calendar date. *)
Definition calendar_date (s : string) : option (Z * Z * Z) :=
  if negb (Nat.eqb (String.length s) 10) then None
  else if negb (String.eqb (String.substring 4 1 s) "-"
                && String.eqb (String.substring 7 1 s) "-") then None
  else
    match digits (String.substring 0 4 s),
          digits (String.substring 5 2 s),
          digits (String.substring 8 2 s) with
    | Some year, Some month, Some day =>
        if ((1 <=? month) && (month <=? 12)
            && (1 <=? day) && (day <=? days_in_month year month))%Z
        then Some (year, month, day)
        else None
    | _, _, _ => None
    end.

Definition getMonth (s : string) : option Z :=
  match calendar_date s with
  | Some (_, month, _) => Some (month - 1)
  | None => None
  end.

Definition getFullYear (s : string) : option Z :=
  match calendar_date s with
  | Some (year, _, _) => Some year
  | None => None
  end.

End SampleDates.

(** * Properties *)

(** ** The models of the host functions on known values *)

Example parseFloat_decimal :
  parseFloat "1234.56" = S754_finite false 5429652300748554 (-42)
  /\ parseFloat "5678.90" = S754_finite false 6244016582977126 (-40)
  /\ parseFloat "-500.00" = S754_finite true 8796093022208000 (-44)
  /\ parseFloat "0.1" = S754_finite false 7205759403792794 (-56)
  /\ parseFloat "5e-324" = S754_finite false 1 (-1074)
  /\ parseFloat "1.7976931348623157e308" = S754_finite false 9007199254740991 971.
Proof. repeat split; vm_compute; reflexivity. Qed.

Example parseFloat_prefix :
  parseFloat "  12abc" = of_Z 12 /\ parseFloat "1e999" = Infinity
  /\ parseFloat "-0" = neg_zero /\ parseFloat ".5e1x" = of_Z 5
  /\ parseFloat "+-1" = NaN /\ parseFloat "" = NaN /\ parseFloat "0x10" = zero.
Proof. repeat split; vm_compute; reflexivity. Qed.

Example Number_toString_shortest :
  map (fun s => SampleHost.Number_toString (parseFloat s))
      ["1234.56"; "0.1"; "1e21"; "1e-7"; "123456789012345680000"; "0.000001";
       "0.30000000000000004"; "-4.5"; "5e-324"; "Infinity"; "x"]
  = ["1234.56"; "0.1"; "1e+21"; "1e-7"; "123456789012345680000"; "0.000001";
     "0.30000000000000004"; "-4.5"; "5e-324"; "Infinity"; "NaN"].
Proof. vm_compute. reflexivity. Qed.

Example JSON_parse_values :
  SampleHost.JSON_parse "[1, [], {}, null, true, -0.5e1]"
  = Some (JArr [JNum (of_Z 1); JArr []; JObj []; JNull; JBool true; JNum (of_Z (-5))])
  /\ SampleHost.JSON_parse "[1,]" = None
  /\ SampleHost.JSON_parse "[01]" = None
  /\ SampleHost.JSON_parse "[] x" = None.
Proof. repeat split; vm_compute; reflexivity. Qed.

(** The decoding example of the specification. *)
Example parseCSV_coffee :
  parseCSV ("Date,Description,Amount" +:+ String LF "2024-01-05,Coffee,-4.50")
  = [Parsed.mk (JStr "2024-01-05") (JStr "Coffee")
       (S754_finite true 5066549580791808 (-50))].
Proof. vm_compute. reflexivity. Qed.

Example parseYNAB_null_item :
  parseYNAB SampleHost.JSON_parse SampleHost.Number_toString "[{}, null]" = []
  /\ parseYNAB SampleHost.JSON_parse SampleHost.Number_toString "[{}, 7]"
     = [Parsed.mk (JStr "") (JStr "") zero; Parsed.mk (JStr "") (JStr "") zero].
Proof. split; vm_compute; reflexivity. Qed.

(** ** Categorizer *)

(** C6: for every description the if-chain of [categorizeTransaction] is the
    ordered rule table with case-insensitive substring matching, first match
    winning and ["Other"] as the default; and the three sample descriptions
    get Entertainment, Food & Dining and Other. *)
Theorem categorizeTransaction_first_match :
  (forall description,
      categorizeTransaction description
      = RuleTable.first_match RuleTable.rules description)
  /\ categorizeTransaction "Monthly Netflix subscription" = "Entertainment"
  /\ categorizeTransaction "Grocery run at Market" = "Food & Dining"
  /\ categorizeTransaction "Unknown vendor xyz" = "Other".
Proof.
  split; [| repeat split; vm_compute; reflexivity].
  intros description.
  unfold categorizeTransaction, RuleTable.rules, RuleTable.first_match,
    RuleTable.contains_nocase, existsb.
  set (l := Str.toLowerCase description).
  repeat match goal with
         | |- context [Str.toLowerCase ?k] =>
             let k' := eval vm_compute in (Str.toLowerCase k) in
             change (Str.toLowerCase k) with k'
         end.
  repeat match goal with
         | |- context [Str.includes l ?k] =>
             destruct (Str.includes l k); cbn [orb]; try reflexivity
         end.
Qed.

(** ** Import decoder *)

Lemma or_else_date v :
  negb (Json.truthy (Json.or_else v (JStr "")))
  = ImportSpec.date_is_empty (Json.or_else v (JStr "")).
Proof.
  destruct v as [x|]; [|reflexivity].
  unfold Json.or_else. destruct (Json.truthy x) eqn:Ht; [|reflexivity].
  rewrite Ht. destruct x; simpl in *; try reflexivity; try discriminate.
  now destruct (String.eqb s "").
Qed.

Lemma parseCSV_row_decoded headers line : ImportSpec.decoded (parseCSV_row headers line).
Proof.
  unfold ImportSpec.decoded, parseCSV_row. simpl.
  now destruct (String.eqb _ "").
Qed.

Lemma parseCSV_decoded text : Forall ImportSpec.decoded (parseCSV text).
Proof.
  unfold parseCSV. apply Forall_forall. intros r Hr.
  apply list_elem_of_In, in_map_iff in Hr. destruct Hr as [line [<- _]].
  apply parseCSV_row_decoded.
Qed.

Lemma keep_decoded r : ImportSpec.decoded r -> keep r = negb (ImportSpec.rejected r).
Proof.
  unfold ImportSpec.decoded, keep, ImportSpec.rejected. intros ->.
  destruct (ImportSpec.date_is_empty _); [reflexivity|].
  now destruct (isNaN _).
Qed.

Lemma filter_length_split {A} (f : A -> bool) (l : list A) :
  length l = (length (List.filter (fun x => negb (f x)) l)
              + length (List.filter f l))%nat.
Proof.
  induction l as [|x l IH]; [reflexivity|].
  simpl. destruct (f x); simpl; lia.
Qed.

Section HostFacts.
Variable JSON_parse : string -> option json.
Variable Number_toString : number -> string.

Lemma parseYNAB_item_decoded item r :
  parseYNAB_item Number_toString item = Normal r -> ImportSpec.decoded r.
Proof.
  unfold parseYNAB_item. intros H.
  destruct (Json.get item "Date") as [d|]; [|discriminate].
  destruct (Json.get item "Description") as [ds|]; [|discriminate].
  destruct (Json.get item "Amount") as [a|]; [|discriminate].
  cbn in H.
  destruct (Json.toString _ _) as [s|]; [|discriminate].
  cbn in H. injection H as <-. apply or_else_date.
Qed.

Lemma mapM_decoded items rs :
  mapM (parseYNAB_item Number_toString) items = Normal rs -> Forall ImportSpec.decoded rs.
Proof.
  revert rs. induction items as [|item items IH]; intros rs H.
  - injection H as <-. constructor.
  - cbn in H.
    destruct (parseYNAB_item _ item) as [r|] eqn:Hr; [|discriminate].
    cbn in H.
    destruct (mapM _ items) as [rs'|]; [|discriminate].
    cbn in H. injection H as <-.
    constructor; [eapply parseYNAB_item_decoded; eassumption | now apply IH].
Qed.

Lemma parseYNAB_decoded text :
  Forall ImportSpec.decoded (parseYNAB JSON_parse Number_toString text).
Proof.
  unfold parseYNAB, parseYNAB_try.
  destruct (JSON_parse text) as [[| | | |items|]|]; try constructor.
  destruct (mapM _ items) as [rs|] eqn:H; [|constructor].
  eapply mapM_decoded; eassumption.
Qed.

Lemma parsedTransactions_decoded fileType result :
  Forall ImportSpec.decoded (parsedTransactions JSON_parse Number_toString fileType result).
Proof.
  destruct fileType; simpl;
    [apply parseCSV_decoded | apply parseYNAB_decoded | apply parseCSV_decoded].
Qed.

(** C7 (amended): in every format the validation drops exactly the
    decoded records whose date is the empty string or whose amount is
    NaN, keeping the others in order, and the number of accepted records
    is the number of decoded rows minus the number of dropped ones. *)
Theorem validation_drops_empty_date_or_NaN fileType result :
  let parsed := parsedTransactions JSON_parse Number_toString fileType result in
  let accepted := validatedTransactions JSON_parse Number_toString fileType result in
  accepted = List.filter (fun r => negb (ImportSpec.rejected r)) parsed
  /\ length accepted
     = (length parsed - length (List.filter ImportSpec.rejected parsed))%nat.
Proof.
  intros parsed accepted.
  assert (E : accepted = List.filter (fun r => negb (ImportSpec.rejected r)) parsed).
  { unfold accepted, validatedTransactions. fold parsed.
    pose proof (parsedTransactions_decoded fileType result) as Hd. fold parsed in Hd.
    induction Hd as [|r l Hr _ IH]; [reflexivity|].
    simpl. rewrite (keep_decoded r Hr), IH. reflexivity. }
  split; [exact E|].
  rewrite E, (filter_length_split ImportSpec.rejected parsed) at 1. lia.
Qed.

(** C9: a text that [JSON.parse] rejects, or that parses to anything but
    an array, decodes to the empty list; [parseYNAB] is a total function,
    so nothing is raised to the caller. *)
Theorem parseYNAB_malformed_is_empty text :
  (JSON_parse text = None
   \/ exists v, JSON_parse text = Some v /\ forall items, v <> JArr items) ->
  parseYNAB JSON_parse Number_toString text = [].
Proof.
  unfold parseYNAB, parseYNAB_try.
  intros [-> | [v [-> Hv]]]; [reflexivity|].
  destruct v; try reflexivity.
  now destruct (Hv items).
Qed.
End HostFacts.

Lemma parseYNAB_malformed_is_empty_witness :
  parseYNAB SampleHost.JSON_parse SampleHost.Number_toString "not json" = []
  /\ parseYNAB SampleHost.JSON_parse SampleHost.Number_toString "{ }" = [].
Proof.
  split; apply parseYNAB_malformed_is_empty.
  - left. vm_compute. reflexivity.
  - right. exists (JObj []). split; [vm_compute; reflexivity|].
    intros items. discriminate.
Defined.

(** C7 (as stated, refuted): a row whose amount is [Infinity] has a date
    and an amount that is not a finite number, and the validation keeps it. *)
Lemma validation_keeps_Infinity :
  ~ (forall JSON_parse Number_toString fileType result,
        validatedTransactions JSON_parse Number_toString fileType result
        = List.filter (fun r => negb (ImportSpec.rejected_by_spec r))
            (parsedTransactions JSON_parse Number_toString fileType result)).
Proof.
  intros H.
  specialize (H SampleHost.JSON_parse SampleHost.Number_toString csv
                ("Date,Description,Amount" +:+ String LF "2024-01-08,Gold,Infinity")).
  vm_compute in H. discriminate H.
Qed.

(** *** Amount cells *)

Lemma read_digits_no_digit acc s :
  ImportSpec.first_is_digit s = false -> read_digits acc 0 s = (acc, 0%nat, s).
Proof.
  destruct s as [|c s]; [reflexivity|].
  simpl. unfold digit_of. now intros ->.
Qed.

Lemma read_literal_no_number neg u :
  String.prefix "Infinity" u = false ->
  ImportSpec.first_is_digit u = false ->
  match after "." u with
  | Some r => ImportSpec.first_is_digit r
  | None => false
  end = false ->
  read_literal neg u = NaN.
Proof.
  intros Hinf Hd Hdot.
  unfold read_literal, read_unsigned. rewrite Hinf.
  rewrite (read_digits_no_digit 0 u Hd).
  destruct (after "." u) as [r|]; [|reflexivity].
  now rewrite (read_digits_no_digit 0 r Hdot).
Qed.

Lemma parseFloat_no_number s :
  ImportSpec.starts_number s = false -> parseFloat s = NaN.
Proof.
  unfold ImportSpec.starts_number, parseFloat.
  destruct (read_sign (Str.trimStart s)) as [neg u].
  intros H.
  apply orb_false_iff in H as [H Hdot].
  apply orb_false_iff in H as [Hinf Hd].
  now apply read_literal_no_number.
Qed.

Lemma text_amount_parseFloat field :
  ImportSpec.text_amount field
  = parseFloat match field with
               | Some s => if String.eqb s "" then "0" else s
               | None => "0"
               end.
Proof.
  destruct field as [s|]; [|reflexivity].
  simpl. destruct (String.eqb s ""); [reflexivity|].
  destruct (ImportSpec.starts_number s) eqn:E; [reflexivity|].
  symmetry. now apply parseFloat_no_number.
Qed.

(** The row object after the [forEach]: each key holds the value under
    its last header. *)
Lemma row_object_lookup (values : list string) key headers :
  forall (g : nat -> nat) (acc : gmap string (option string)),
    fold_left (fun obj '(index, header) => <[header := values !! index]> obj)
              (imap (fun j h => (g j, h)) headers) acc !! key
    = match ImportSpec.last_index key headers with
      | Some j => Some (values !! g j)
      | None => acc !! key
      end.
Proof.
  induction headers as [|h hs IH]; intros g acc; [reflexivity|].
  cbn [imap fold_left ImportSpec.last_index].
  change (imap ((fun j h0 => (g j, h0)) ∘ S) hs)
    with (imap (fun j h0 => ((g ∘ S) j, h0)) hs).
  rewrite IH.
  destruct (ImportSpec.last_index key hs) as [j|]; [reflexivity|].
  destruct (String.eqb_spec h key) as [->|Hne].
  - now rewrite lookup_insert_eq.
  - now rewrite lookup_insert_ne.
Qed.

Lemma field_or_cell headers line key d :
  let values := map Str.trim (Str.split "," line) in
  field_or (fold_left (fun obj '(index, header) => <[header := values !! index]> obj)
                      (imap pair headers) ∅) key d
  = match ImportSpec.cell headers line key with
    | Some s => if String.eqb s "" then d else s
    | None => d
    end.
Proof.
  intros values. unfold field_or, ImportSpec.cell.
  change (imap pair headers) with (imap (fun j h => (id j, h)) headers).
  rewrite row_object_lookup. fold values.
  destruct (ImportSpec.last_index key headers) as [j|]; [|now rewrite lookup_empty].
  unfold id. now destruct (values !! j).
Qed.

(** C8 (amended): in both formats an amount field that is missing or
    empty decodes to zero, and one that holds text decodes to what
    [parseFloat] reads: NaN when the text does not start like a number.
    The record is produced in every case (no failure). *)
Theorem amount_field_decoding :
  (forall headers line,
      Parsed.amount (parseCSV_row headers line)
      = ImportSpec.text_amount (ImportSpec.cell headers line "Amount"))
  /\ (forall Number_toString props s,
         Json.own props "Amount" = Some (JStr s) ->
         exists r, parseYNAB_item Number_toString (JObj props) = Normal r
                   /\ Parsed.amount r = ImportSpec.text_amount (Some s))
  /\ (forall Number_toString props,
         Json.own props "Amount" = None ->
         exists r, parseYNAB_item Number_toString (JObj props) = Normal r
                   /\ Parsed.amount r = zero).
Proof.
  split; [|split].
  - intros headers line. rewrite text_amount_parseFloat.
    unfold parseCSV_row. cbn [Parsed.amount].
    now rewrite field_or_cell.
  - intros NT props s H. rewrite text_amount_parseFloat.
    unfold parseYNAB_item. cbn. rewrite H.
    unfold Json.or_else at 3. cbn [Json.truthy].
    destruct (String.eqb s ""); cbn; eexists; split; reflexivity.
  - intros NT props H. unfold parseYNAB_item. cbn. rewrite H.
    eexists; split; reflexivity.
Qed.

Lemma amount_field_decoding_witness :
  (exists r,
      parseYNAB_item SampleHost.Number_toString
        (JObj [("Date", JStr "2024-01-06"); ("Amount", JStr "abc")]) = Normal r
      /\ Parsed.amount r = NaN)
  /\ (exists r,
         parseYNAB_item SampleHost.Number_toString
           (JObj [("Date", JStr "2024-01-07")]) = Normal r
         /\ Parsed.amount r = zero).
Proof.
  split.
  - destruct (proj1 (proj2 amount_field_decoding) SampleHost.Number_toString
                [("Date", JStr "2024-01-06"); ("Amount", JStr "abc")] "abc" eq_refl)
      as [r [H1 H2]].
    exists r. split; [exact H1|]. rewrite H2. vm_compute. reflexivity.
  - exact (proj2 (proj2 amount_field_decoding) SampleHost.Number_toString
             [("Date", JStr "2024-01-07")] eq_refl).
Defined.

(** C8 (as stated, refuted): the amount text [abc] is decoded to NaN, not
    to zero. *)
Lemma non_numeric_amount_is_not_zero :
  exists r,
    parseCSV ("Date,Description,Amount" +:+ String LF "2024-01-06,Tea,abc") = [r]
    /\ ImportSpec.cell ["Date"; "Description"; "Amount"] "2024-01-06,Tea,abc" "Amount"
       = Some "abc"
    /\ Parsed.amount r = NaN
    /\ Parsed.amount r <> zero.
Proof.
  eexists. split; [vm_compute; reflexivity|].
  split; [vm_compute; reflexivity|].
  split; [reflexivity | discriminate].
Qed.

(** ** Arithmetic of numbers *)

Lemma sub_diag x : isFinite x = true -> sub x x = zero.
Proof.
  destruct x as [[]| | |s m e]; try discriminate; intros _; try reflexivity.
  unfold sub, SFsub. now rewrite Z.sub_diag.
Qed.

Lemma add_zero_r x : x <> neg_zero -> add x zero = x.
Proof.
  destruct x as [[]|[]| |s m e]; intros H; try reflexivity.
  now destruct H.
Qed.

Lemma add_zero_same x : same_value_zero (add x zero) x.
Proof.
  destruct x as [[]|[]| |s m e]; try (left; reflexivity).
  right. now exists false, true.
Qed.

Lemma iter_shr_1_nonneg p :
  forall mrs, 0 <= shr_m mrs -> 0 <= shr_m (SpecFloat.iter_pos shr_1 p mrs).
Proof.
  assert (H1 : forall mrs, 0 <= shr_m mrs -> 0 <= shr_m (shr_1 mrs)).
  { intros [[|[q|q|]|q] r t] H; simpl in *; lia. }
  induction p as [p IH|p IH|]; intros mrs H; simpl; auto.
Qed.

Lemma shr_fexp_nonneg m e l :
  0 <= m -> 0 <= shr_m (fst (shr_fexp prec emax m e l)).
Proof.
  intros H. unfold shr_fexp, shr.
  assert (H0 : 0 <= shr_m (shr_record_of_loc m l)) by (destruct l as [|[]]; exact H).
  destruct (fexp prec emax (Zdigits2 m + e) - e); simpl; auto.
  now apply iter_shr_1_nonneg.
Qed.

Lemma round_nearest_even_nonneg m l : 0 <= m -> 0 <= round_nearest_even m l.
Proof.
  intros H. destruct l as [|[]]; simpl; try lia.
  destruct (Z.even m); lia.
Qed.

(** Rounding a non-negative mantissa keeps the sign and never gives NaN. *)
Lemma binary_round_aux_sign sx mx ex lx :
  0 <= mx ->
  match binary_round_aux prec emax sx mx ex lx with
  | S754_nan => False
  | S754_zero s | S754_infinity s | S754_finite s _ _ => s = sx
  end.
Proof.
  intros H. unfold binary_round_aux.
  pose proof (shr_fexp_nonneg mx ex lx H) as H1.
  destruct (shr_fexp prec emax mx ex lx) as [mrs' e']. simpl in H1.
  pose proof (shr_fexp_nonneg _ e' loc_Exact
                (round_nearest_even_nonneg _ (loc_of_shr_record mrs') H1)) as H2.
  destruct (shr_fexp prec emax _ e' loc_Exact) as [mrs'' e'']. simpl in H2.
  destruct (shr_m mrs'') as [|q|q]; [reflexivity| |lia].
  now destruct (Z.leb e'' (emax - prec)).
Qed.

Lemma add_nonneg x y : nonneg x = true -> nonneg y = true -> nonneg (add x y) = true.
Proof.
  destruct x as [[]|[]| |[] mx ex]; try discriminate;
    destruct y as [[]|[]| |[] my ey]; try discriminate; intros _ _; try reflexivity.
  unfold add, SFadd, cond_Zopp.
  set (ez := Z.min ex ey).
  change (Z.pos (shl_align mx ex ez).1 + Z.pos (shl_align my ey ez).1)
    with (Z.pos ((shl_align mx ex ez).1 + (shl_align my ey ez).1)).
  unfold binary_normalize, binary_round.
  destruct (shl_align _ ez _) as [mz ez'].
  pose proof (binary_round_aux_sign false (Z.pos mz) ez' loc_Exact) as H.
  destruct (binary_round_aux _ _ _ _ _ _) as [s|s| |s m e]; try (now rewrite H); now destruct H.
Qed.

Lemma abs_negative_nonneg x : lt x zero = true -> nonneg (abs x) = true.
Proof. destruct x as [[]|[]| |[] m e]; try discriminate; reflexivity. Qed.

Lemma or_zero_nonneg x : nonneg x = true -> Dashboard.or_zero (Some x) = x.
Proof. destruct x as [[]|[]| |[] m e]; try discriminate; reflexivity. Qed.

(** ** Ledger and reconciler *)

Lemma Forall2_map_r {A B} (R : A -> B -> Prop) (f : A -> B) (l : list A) :
  (forall x, R x (f x)) -> Forall2 R l (map f l).
Proof. intros H. induction l; constructor; auto. Qed.

Lemma list_lookup_map {A B} (f : A -> B) (l : list A) (i : nat) :
  map f l !! i = f <$> (l !! i).
Proof. exact (list_lookup_fmap f l i). Qed.

Lemma same_refl a : Account.same a a.
Proof. repeat split; now left. Qed.

Lemma map_fixed {A} (f : A -> A) (l : list A) :
  Forall (fun x => f x = x) l -> map f l = l.
Proof. induction 1 as [|x l Hx _ IH]; simpl; congruence. Qed.

(** On a stored amount that is a finite number the accounts pass adds the
    amount minus itself, which is [+0], whatever the edit changes: balances
    are equal up to the sign of zero, and identical when none is [-0]. *)
Lemma updateTransaction_self_delta id updates st :
  (forall t, find_by_id (transactions st) id = Some t ->
             isFinite (Transaction.amount t) = true) ->
  Forall2 Account.same (accounts st) (accounts (updateTransaction id updates st))
  /\ (Forall (fun a => Account.balance a <> neg_zero) (accounts st) ->
      accounts (updateTransaction id updates st) = accounts st).
Proof.
  intros Hfin. cbn [updateTransaction accounts].
  unfold updateTransaction_accounts.
  destruct (find_by_id (transactions st) id) as [orig|].
  - rewrite (sub_diag _ (Hfin orig eq_refl)). split.
    + apply Forall2_map_r. intros a.
      destruct (String.eqb _ _); [|apply same_refl].
      repeat split. apply add_zero_same.
    + intros H. apply map_fixed.
      eapply Forall_impl; [exact H|]. intros a Ha. cbn beta.
      destruct (String.eqb _ _); [|reflexivity].
      unfold Account.with_balance. rewrite (add_zero_r _ Ha). now destruct a.
  - split; [apply Forall2_map_r; intros; apply same_refl|].
    intros _. apply map_fixed, Forall_forall. reflexivity.
Qed.

(** C3 (amended): an update with an id that no transaction has leaves
    every account as it was; an update of a transaction leaves as it was
    every account other than the one the transaction is on before the
    update and the one it is on after it. *)
Theorem updateTransaction_keeps_balances id updates st :
  (find_by_id (transactions st) id = None ->
   accounts (updateTransaction id updates st) = accounts st)
  /\ (forall t, find_by_id (transactions st) id = Some t ->
      forall (i : nat) (a : Account.t),
        accounts st !! i = Some a ->
        Account.id a <> Transaction.account t ->
        Account.id a <> Transaction.account (spread t updates) ->
        accounts (updateTransaction id updates st) !! i = Some a).
Proof.
  cbn [updateTransaction accounts]. unfold updateTransaction_accounts. split.
  - intros ->. apply map_fixed, Forall_forall. reflexivity.
  - intros t -> i a Ha Hold _. rewrite list_lookup_map, Ha. cbn.
    now destruct (String.eqb_spec (Account.id a) (Transaction.account t)).
Qed.

Lemma updateTransaction_keeps_balances_witness :
  accounts (updateTransaction "t9" (Sample.edit (of_Z 20) "checking1") Sample.entered)
  = accounts Sample.entered
  /\ accounts (updateTransaction "t1" (Sample.edit (of_Z 20) "checking1") Sample.entered)
       !! 1%nat
     = Some (Account.mk "savings1" "Savings Account 1" savings
               (S754_finite false 6244016582977126 (-40))).
Proof.
  split.
  - apply (proj1 (updateTransaction_keeps_balances
                    "t9" (Sample.edit (of_Z 20) "checking1") Sample.entered)).
    reflexivity.
  - apply (proj2 (updateTransaction_keeps_balances
                    "t1" (Sample.edit (of_Z 20) "checking1") Sample.entered)
             (Sample.recorded (of_Z 10) "credit1") eq_refl 1%nat _ eq_refl);
      vm_compute; discriminate.
Defined.

(** C3 (as stated, refuted): once a transaction stores NaN, as after
    saving the edit form with the amount cleared, the next update turns the
    balance of its account into NaN. *)
Lemma updateTransaction_NaN_changes_balance :
  ~ (forall id updates st,
        Forall2 (fun a a' => same_value_zero (Account.balance a') (Account.balance a))
                (accounts st) (accounts (updateTransaction id updates st))).
Proof.
  intros H.
  specialize (H "t1" (Sample.edit (of_Z 20) "credit1") Sample.cleared).
  apply Forall2_lookup_lr with (i := 2%nat)
        (x := Account.mk "credit1" "Credit Card 1" credit (of_Z (-490)))
        (y := Account.mk "credit1" "Credit Card 1" credit NaN) in H;
    [|vm_compute; reflexivity|vm_compute; reflexivity].
  destruct H as [H|[s [s' [H _]]]]; vm_compute in H; discriminate H.
Qed.

(** C1 (the code at the failing input): after the purchase is entered the
    balances reconcile; after its amount is edited from 10 to 20 the card's
    balance is still the seed plus 10 and the invariant is broken. *)
Lemma update_breaks_reconciliation :
  Reconciliation.reconciled (run [OpAdd "t1" Sample.purchase] initial)
  /\ ~ Reconciliation.reconciled
       (run [OpAdd "t1" Sample.purchase;
             OpUpdate "t1" (Sample.edit (of_Z 20) "credit1")] initial).
Proof.
  split.
  - repeat constructor; try (vm_compute; discriminate);
      intros seed Hs; vm_compute in Hs; injection Hs as <-; vm_compute; reflexivity.
  - intros H.
    apply (proj1 (Forall_lookup _ _)) with (i := 2%nat)
          (x := Account.mk "credit1" "Credit Card 1" credit (of_Z (-490))) in H;
      [|vm_compute; reflexivity].
    destruct H as [_ H]. specialize (H (of_Z (-500)) eq_refl).
    vm_compute in H. discriminate H.
Qed.

(** C2 (the code at the failing input): editing the amount from 10 to 20,
    or moving the purchase to the checking account, rewrites the
    transaction and leaves all three balances as they were, where the
    specification wants the delta of 10 on the card, respectively the
    purchase moved from the card to the checking account. *)
Lemma update_applies_no_delta :
  let old := Sample.recorded (of_Z 10) "credit1" in
  find_by_id (transactions Sample.entered) "t1" = Some old
  /\ (let new := Sample.recorded (of_Z 20) "credit1" in
      let st' := Sample.saved (of_Z 20) "credit1" in
      find_by_id (transactions st') "t1" = Some new
      /\ accounts st' = accounts Sample.entered
      /\ ~ Reconciliation.delta_applied old new (accounts Sample.entered) (accounts st'))
  /\ (let new := Sample.recorded (of_Z 10) "checking1" in
      let st' := Sample.saved (of_Z 10) "checking1" in
      find_by_id (transactions st') "t1" = Some new
      /\ accounts st' = accounts Sample.entered
      /\ ~ Reconciliation.delta_applied old new (accounts Sample.entered) (accounts st')).
Proof.
  intros old. split; [vm_compute; reflexivity|].
  split; intros new st';
    (split; [vm_compute; reflexivity|]);
    (split; [vm_compute; reflexivity|]);
    intros H;
    apply Forall2_lookup_lr with (i := 2%nat)
          (x := Account.mk "credit1" "Credit Card 1" credit (of_Z (-490)))
          (y := Account.mk "credit1" "Credit Card 1" credit (of_Z (-490))) in H;
    try (vm_compute; reflexivity);
    vm_compute in H; discriminate H.
Qed.

Lemma transactionsWithIds_texts uuid accountId batch :
  Forall (fun r => Imported.is_text r = true) batch ->
  forall index,
  exists l,
    Runtime.transactionsWithIds uuid accountId index batch = Normal l
    /\ length l = length batch
    /\ forall (i : nat) r description,
        batch !! i = Some r -> Imported.description r = JStr description ->
        l !! i = Some (Transaction.mk (uuid (index + i)%nat) (Imported.date r) description
                         (categorizeTransaction description)
                         (Imported.amount r) accountId).
Proof.
  induction 1 as [|r batch Hr _ IH]; intros index.
  - exists []. repeat split. intros i r s H. discriminate H.
  - destruct (IH (S index)) as [l [E [Hl Hi]]].
    unfold Imported.is_text in Hr.
    destruct (Imported.description r) as [| | |d| |] eqn:Ed; try discriminate Hr.
    eexists. cbn [Runtime.transactionsWithIds]. unfold Runtime.withId.
    rewrite Ed, E. split; [reflexivity|]. split; [cbn; now rewrite Hl|].
    intros [|i] r' s H Hs; cbn in H.
    + injection H as <-. rewrite Ed in Hs. injection Hs as <-.
      cbn. now rewrite Nat.add_0_r.
    + replace (index + S i)%nat with (S index + i)%nat by lia.
      exact (Hi i r' s H Hs).
Qed.

Lemma transactionsWithIds_throws uuid accountId batch :
  Exists (fun r => Imported.is_text r = false) batch ->
  forall index, Runtime.transactionsWithIds uuid accountId index batch = Throw.
Proof.
  induction 1 as [r batch Hr|r batch _ IH]; intros index;
    cbn [Runtime.transactionsWithIds]; unfold Runtime.withId.
  - unfold Imported.is_text in Hr.
    now destruct (Imported.description r).
  - rewrite IH. now destruct (Imported.description r).
Qed.

Lemma texts_or_not (batch : list Imported.t) :
  Forall (fun r => Imported.is_text r = true) batch
  \/ Exists (fun r => Imported.is_text r = false) batch.
Proof.
  induction batch as [|r batch [IH|IH]].
  - left. constructor.
  - destruct (Imported.is_text r) eqn:E.
    + left. now constructor.
    + right. now constructor.
  - right. now constructor 2.
Qed.

(** C4 (amended): a bulk import of records whose descriptions are strings
    into [accountId] completes, and replaces the balance of every account
    with that id by the balance plus the sum of the batch's amounts (added
    left to right from 0), leaving every other account as it was. *)
Theorem importTransactions_balances uuid batch accountId st :
  Forall (fun r => Imported.is_text r = true) batch ->
  exists st',
    Runtime.importTransactions uuid batch accountId st = Normal st'
    /\ length (accounts st') = length (accounts st)
    /\ forall (i : nat) (a : Account.t),
        accounts st !! i = Some a ->
        (Account.id a = accountId ->
         accounts st' !! i
         = Some (Account.with_balance a
                   (add (Account.balance a) (Imported.total batch))))
        /\ (Account.id a <> accountId -> accounts st' !! i = Some a).
Proof.
  intros H. unfold Runtime.importTransactions.
  destruct (transactionsWithIds_texts uuid accountId batch H 0%nat) as [l [-> _]].
  eexists. split; [reflexivity|]. cbn [accounts]. split; [apply length_map|].
  intros i a Ha. rewrite list_lookup_map, Ha. cbn.
  destruct (String.eqb_spec (Account.id a) accountId) as [E|E]; split; intros E';
    try reflexivity; contradiction.
Qed.

Lemma importTransactions_balances_witness :
  exists st',
    Runtime.importTransactions (fun _ => "t2")
      [SampleImport.coffee; SampleImport.coffee] "savings1" Sample.entered = Normal st'
    /\ accounts st' !! 1%nat
       = Some (Account.mk "savings1" "Savings Account 1" savings
                 (add (S754_finite false 6244016582977126 (-40)) (of_Z 20)))
    /\ accounts st' !! 2%nat
       = Some (Account.mk "credit1" "Credit Card 1" credit (of_Z (-490))).
Proof.
  destruct (importTransactions_balances (fun _ => "t2")
              [SampleImport.coffee; SampleImport.coffee] "savings1" Sample.entered)
    as [st' [E [_ H]]].
  - repeat constructor.
  - exists st'. split; [exact E|]. split.
    + apply (proj1 (H 1%nat _ eq_refl)). reflexivity.
    + apply (proj2 (H 2%nat _ eq_refl)). vm_compute. discriminate.
Defined.

(** C4 (as stated, refuted): a JSON item whose Description is the number 7
    passes the validation; the import of that batch throws in the
    categorizer before either list is set, and the savings account keeps
    its balance where the sum of the batch is 5. *)
Lemma import_of_number_description_keeps_balance :
  let validated :=
    validatedTransactions SampleHost.JSON_parse SampleHost.Number_toString
                          ynab SampleImport.numbered in
  validated = [Parsed.mk (JStr "2024-01-05") (JNum (of_Z 7)) (of_Z 5)]
  /\ map Imported.of_parsed validated = [Some SampleImport.seven]
  /\ Runtime.importTransactions (fun _ => "t2") [SampleImport.seven]
       "savings1" Sample.entered = Throw
  /\ ~ (forall uuid batch accountId st (i : nat) (a : Account.t),
           accounts st !! i = Some a ->
           Account.id a = accountId ->
           accounts (Runtime.handled
                       (Runtime.importTransactions uuid batch accountId st) st) !! i
           = Some (Account.with_balance a
                     (add (Account.balance a) (Imported.total batch)))).
Proof.
  cbn zeta. split; [vm_compute; reflexivity|].
  split; [vm_compute; reflexivity|].
  split; [reflexivity|].
  intros H.
  specialize (H (fun _ => "t2") [SampleImport.seven] "savings1" Sample.entered 1%nat
                (Account.mk "savings1" "Savings Account 1" savings
                   (S754_finite false 6244016582977126 (-40)))
                eq_refl eq_refl).
  vm_compute in H. discriminate H.
Qed.

Lemma total_of_typed batch :
  forall acc,
    fold_left (fun sum t => add sum (Imported.amount t)) (map Imported.of_typed batch) acc
    = fold_left (fun sum t => add sum (NewTransaction.amount t)) batch acc.
Proof. induction batch as [|t batch IH]; intros acc; [reflexivity|]. cbn. apply IH. Qed.

Lemma transactionsWithIds_typed uuid accountId batch :
  forall index,
    Runtime.transactionsWithIds uuid accountId index (map Imported.of_typed batch)
    = Normal (imap (fun i t =>
                      Transaction.mk (uuid (index + i)%nat)
                        (NewTransaction.date t) (NewTransaction.description t)
                        (categorizeTransaction (NewTransaction.description t))
                        (NewTransaction.amount t) accountId)
                   batch).
Proof.
  induction batch as [|t batch IH]; intros index; [reflexivity|].
  cbn [map Runtime.transactionsWithIds]. rewrite IH. cbn.
  rewrite Nat.add_0_r. do 2 f_equal.
  apply imap_ext. intros i x _. cbn. do 2 f_equal. lia.
Qed.

(** On a batch of the declared type the call completes, and with the state
    of [importTransactions]. *)
Lemma importTransactions_typed uuid batch accountId st :
  Runtime.importTransactions uuid (map Imported.of_typed batch) accountId st
  = Normal (importTransactions uuid batch accountId st).
Proof.
  unfold Runtime.importTransactions, importTransactions, Imported.total.
  rewrite transactionsWithIds_typed, total_of_typed. reflexivity.
Qed.

Lemma find_by_id_filter id l :
  find_by_id
    (List.filter (fun t => negb (String.eqb (Transaction.id t) id)) l) id = None.
Proof.
  unfold find_by_id. induction l as [|t l IH]; [reflexivity|].
  simpl. destruct (String.eqb (Transaction.id t) id) eqn:E; simpl; [exact IH|].
  now rewrite E.
Qed.

Lemma find_by_id_absent id l :
  Forall (fun t => Transaction.id t <> id) l -> find_by_id l id = None.
Proof.
  unfold find_by_id. induction 1 as [|t l Ht _ IH]; [reflexivity|].
  simpl. now destruct (String.eqb_spec (Transaction.id t) id).
Qed.



(** ** Dashboard *)

Lemma or_zero_is_nonneg (o : option number) :
  (forall v, o = Some v -> nonneg v = true) ->
  nonneg (Dashboard.or_zero o) = true /\ Dashboard.or_zero o <> neg_zero.
Proof.
  intros H. destruct o as [v|]; [|split; [reflexivity|discriminate]].
  specialize (H v eq_refl). rewrite (or_zero_nonneg v H).
  split; [exact H|]. intros ->. discriminate H.
Qed.

Lemma spent_none l c :
  Dashboard.has_category l c = false ->
  List.filter (fun t => String.eqb (Transaction.category t) c
                        && lt (Transaction.amount t) zero) l = [].
Proof.
  unfold Dashboard.has_category.
  induction l as [|t l IH]; [reflexivity|].
  simpl. destruct (String.eqb (Transaction.category t) c); [discriminate|].
  exact IH.
Qed.

(** The fold of [categoryTotals] from any accumulator whose entry for [c]
    is non-negative. *)
Lemma categoryTotals_fold c l :
  forall acc : gmap string number,
    (forall v, acc !! c = Some v -> nonneg v = true) ->
    fold_left
      (fun acc t =>
         let category := Transaction.category t in
         <[category :=
             add (Dashboard.or_zero (acc !! category))
                 (if lt (Transaction.amount t) zero
                  then abs (Transaction.amount t) else zero)]> acc)
      l acc !! c
    = if Dashboard.has_category l c
      then Some (fold_left (fun sum t => add sum (abs (Transaction.amount t)))
                   (List.filter
                      (fun t => String.eqb (Transaction.category t) c
                                && lt (Transaction.amount t) zero) l)
                   (Dashboard.or_zero (acc !! c)))
      else acc !! c.
Proof.
  induction l as [|t l IH]; intros acc Hacc; [reflexivity|].
  cbn [fold_left]. cbn zeta.
  destruct (or_zero_is_nonneg (acc !! c) Hacc) as [Hz Hnz].
  unfold Dashboard.has_category. cbn [existsb List.filter].
  destruct (String.eqb_spec (Transaction.category t) c) as [->|Hne].
  - cbn [orb andb].
    set (v' := add (Dashboard.or_zero (acc !! c)) _).
    assert (Hv' : nonneg v' = true).
    { apply add_nonneg; [exact Hz|].
      destruct (lt (Transaction.amount t) zero) eqn:E;
        [now apply abs_negative_nonneg | reflexivity]. }
    rewrite IH; rewrite lookup_insert_eq;
      [|intros v Hv; injection Hv as <-; exact Hv'].
    rewrite (or_zero_nonneg v' Hv').
    assert (E' : fold_left (fun sum t0 => add sum (abs (Transaction.amount t0)))
                   (List.filter
                      (fun t0 => String.eqb (Transaction.category t0) c
                                 && lt (Transaction.amount t0) zero) l) v'
                 = fold_left (fun sum t0 => add sum (abs (Transaction.amount t0)))
                     (if lt (Transaction.amount t) zero
                      then t :: List.filter
                             (fun t0 => String.eqb (Transaction.category t0) c
                                        && lt (Transaction.amount t0) zero) l
                      else List.filter
                             (fun t0 => String.eqb (Transaction.category t0) c
                                        && lt (Transaction.amount t0) zero) l)
                     (Dashboard.or_zero (acc !! c))).
    { subst v'. destruct (lt (Transaction.amount t) zero); [reflexivity|].
      now rewrite (add_zero_r _ Hnz). }
    fold (Dashboard.has_category l c).
    destruct (Dashboard.has_category l c) eqn:Hc; [now rewrite E'|].
    rewrite <- E', (spent_none l c Hc). reflexivity.
  - cbn [orb andb].
    rewrite IH; rewrite lookup_insert_ne by exact Hne; [reflexivity|exact Hacc].
Qed.

(** C5 (amended): the example month gives income 1000, expenses -250, net
    750 and the breakdown [{income: 0, Food: 250}]; in general the
    breakdown has an entry for exactly the categories that occur in scope,
    and the entry of [c] is the sum of [abs(amount)] over the in-scope
    transactions of category [c] with a negative amount, so a category
    seen only on income holds 0. *)
Theorem dashboard_aggregates :
  (Dashboard.income Dashboard.example_month = of_Z 1000
   /\ Dashboard.expenses Dashboard.example_month = of_Z (-250)
   /\ Dashboard.netBalance Dashboard.example_month = of_Z 750
   /\ Dashboard.categoryTotals Dashboard.example_month
      = {[ "income" := zero; "Food" := of_Z 250 ]})
  /\ forall filtered c,
      Forall (fun t => Dashboard.plain_key (Transaction.category t)) filtered ->
      Dashboard.categoryTotals filtered !! c
      = if Dashboard.has_category filtered c
        then Some (Dashboard.spent filtered c)
        else None.
Proof.
  split.
  - repeat split; vm_compute; reflexivity.
  - intros filtered c _. unfold Dashboard.categoryTotals.
    rewrite categoryTotals_fold by (intros v; rewrite lookup_empty; discriminate).
    rewrite lookup_empty. reflexivity.
Qed.

Lemma dashboard_aggregates_witness :
  Dashboard.categoryTotals Dashboard.example_month !! "Food" = Some (of_Z 250)
  /\ Dashboard.categoryTotals Dashboard.example_month !! "income" = Some zero
  /\ Dashboard.categoryTotals Dashboard.example_month !! "Housing" = None.
Proof.
  assert (H : Forall (fun t => Dashboard.plain_key (Transaction.category t))
                     Dashboard.example_month).
  { repeat constructor; vm_compute; intuition discriminate. }
  pose proof (proj2 dashboard_aggregates Dashboard.example_month) as G.
  repeat split; rewrite (G _ H); vm_compute; reflexivity.
Defined.

(** C5 (as stated, refuted): the breakdown of the example month is not
    [{Food: 250}]; the income transaction leaves an entry of 0 under its
    own category. *)
Lemma categoryTotals_keeps_income_entry :
  Dashboard.categoryTotals Dashboard.example_month <> {[ "Food" := of_Z 250 ]}
  /\ Dashboard.categoryTotals Dashboard.example_month !! "income" = Some zero.
Proof.
  split; [|vm_compute; reflexivity].
  intros H. apply (f_equal (fun m : gmap string number => m !! "income")) in H.
  vm_compute in H. discriminate H.
Qed.

(** * Further properties of the application *)

(** ** Categorizer and colours *)

Ltac split_rules l :=
  repeat match goal with
         | |- context [Str.includes l ?k] =>
             destruct (Str.includes l k) eqn:?; cbn [orb]
         end.

Lemma categorizeTransaction_label description :
  In (categorizeTransaction description)
     ["Food & Dining"; "Housing"; "Transportation"; "Utilities"; "Shopping";
      "Income"; "Entertainment"; "Other"].
Proof.
  unfold categorizeTransaction.
  set (l := Str.toLowerCase description).
  split_rules l; simpl; tauto.
Qed.

(** X1: whatever the description, the categorizer answers with one of the
    application's categories, and never with Subscriptions, Travel,
    Education or Healthcare. *)
Theorem categorizeTransaction_range description :
  In (categorizeTransaction description) CATEGORIES
  /\ ~ In (categorizeTransaction description)
         ["Subscriptions"; "Travel"; "Education"; "Healthcare"].
Proof.
  pose proof (categorizeTransaction_label description) as H.
  simpl in H.
  repeat (destruct H as [<-|H]; [split; [simpl; tauto | simpl; intuition discriminate]|]).
  destruct H.
Qed.

Lemma lower_char_idempotent c : Str.lower_char (Str.lower_char c) = Str.lower_char c.
Proof. destruct c as [[] [] [] [] [] [] [] []]; vm_compute; reflexivity. Qed.

Lemma toLowerCase_idempotent s :
  Str.toLowerCase (Str.toLowerCase s) = Str.toLowerCase s.
Proof.
  induction s as [|c s IH]; [reflexivity|].
  simpl. now rewrite lower_char_idempotent, IH.
Qed.

Lemma toLowerCase_app a b :
  Str.toLowerCase (a +:+ b) = Str.toLowerCase a +:+ Str.toLowerCase b.
Proof. induction a as [|c a IH]; [reflexivity|]. simpl. now rewrite IH. Qed.

Lemma prefix_app k b : String.prefix k (k +:+ b) = true.
Proof.
  induction k as [|c k IH]; [now destruct b|].
  simpl. destruct (ascii_dec c c) as [_|N]; [exact IH | now destruct N].
Qed.

Lemma includes_app a s sub :
  Str.includes s sub = true -> Str.includes (a +:+ s) sub = true.
Proof.
  intros H. induction a as [|c a IH]; [exact H|].
  simpl. rewrite IH. apply orb_true_r.
Qed.

Lemma includes_middle a k b : Str.includes (a +:+ k +:+ b) k = true.
Proof.
  apply includes_app. destruct k as [|c k].
  - destruct b; reflexivity.
  - change (Str.includes (String c k +:+ b) (String c k))
      with (String.prefix (String c k) (String c k +:+ b)
            || Str.includes (k +:+ b) (String c k)).
    now rewrite prefix_app.
Qed.

(** X2: the categorizer does not see letter case (a description and its
    lower-case form get the same category), and a description that
    mentions "grocery" anywhere, in any casing, is Food & Dining whatever
    else it mentions. *)
Theorem categorizeTransaction_case_and_priority :
  (forall description,
      categorizeTransaction (Str.toLowerCase description)
      = categorizeTransaction description)
  /\ (forall before word after,
         Str.toLowerCase word = "grocery" ->
         categorizeTransaction (before +:+ word +:+ after) = "Food & Dining").
Proof.
  split.
  - intros description. unfold categorizeTransaction.
    now rewrite toLowerCase_idempotent.
  - intros a w b Hw. unfold categorizeTransaction.
    rewrite !toLowerCase_app, Hw.
    now rewrite includes_middle.
Qed.

Lemma categorizeTransaction_case_and_priority_witness :
  categorizeTransaction "Weekly GROCERY run, Netflix and rent" = "Food & Dining".
Proof.
  exact (proj2 categorizeTransaction_case_and_priority
           "Weekly " "GROCERY" " run, Netflix and rent" eq_refl).
Defined.

(** X3: the categorizer answers "Other" exactly for the descriptions
    that, lower-cased, contain none of the fourteen keywords. *)
Theorem categorizeTransaction_Other_iff description :
  categorizeTransaction description = "Other"
  <-> Forall (fun keyword =>
                Str.includes (Str.toLowerCase description) keyword = false)
             (concat (map fst RuleTable.rules)).
Proof.
  unfold categorizeTransaction.
  set (l := Str.toLowerCase description).
  split.
  - split_rules l; intros H; try discriminate H.
    repeat constructor; assumption.
  - intros H. cbn in H.
    repeat match goal with
           | H : Forall _ (_ :: _) |- _ => apply Forall_cons_1 in H as [? H]
           end.
    repeat match goal with
           | E : Str.includes l _ = false |- _ => rewrite E; clear E
           end.
    reflexivity.
Qed.

(** X4: every category of the application, and so every category the
    categorizer assigns, has a colour of its own in the table: the
    default gray is never used for it. *)
Theorem getCategoryColor_known :
  (forall category, In category CATEGORIES -> getCategoryColor category <> "#808080")
  /\ (forall description,
         getCategoryColor (categorizeTransaction description) <> "#808080").
Proof.
  assert (H : forall category, In category CATEGORIES ->
                               getCategoryColor category <> "#808080").
  { intros category Hc. simpl in Hc.
    repeat (destruct Hc as [<-|Hc]; [vm_compute; discriminate|]).
    destruct Hc. }
  split; [exact H|].
  intros description. apply H.
  pose proof (categorizeTransaction_label description) as L.
  simpl in L |- *. tauto.
Qed.

Lemma getCategoryColor_known_witness : getCategoryColor "Travel" <> "#808080".
Proof. apply (proj1 getCategoryColor_known). simpl. tauto. Defined.

(** ** Input sheet *)

(** X5: the Add button hands a transaction over exactly when the four
    text fields are non-empty and the amount is a number other than zero
    and NaN; the transaction carries the fields as entered.  A zero amount
    is refused as a missing field, and the "Invalid amount" message can
    never appear, since a NaN amount is already refused as missing. *)
Theorem handleAdd_accepts_iff form :
  (forall t,
      InputSheet.handleAdd form = inr t
      <-> InputSheet.date form <> "" /\ InputSheet.description form <> ""
          /\ InputSheet.category form <> "" /\ InputSheet.account form <> ""
          /\ InputSheet.amount form = InputSheet.Entered (NewTransaction.amount t)
          /\ Number.truthy (NewTransaction.amount t) = true
          /\ t = NewTransaction.mk (InputSheet.date form) (InputSheet.description form)
                   (InputSheet.category form) (NewTransaction.amount t)
                   (InputSheet.account form))
  /\ InputSheet.handleAdd form <> inl "Invalid amount. Please enter a number.".
Proof.
  destruct form as [d ds a c ac].
  unfold InputSheet.handleAdd.
  cbn [InputSheet.date InputSheet.description InputSheet.amount
       InputSheet.category InputSheet.account].
  assert (E : forall x, isNaN x = true -> Number.truthy x = false)
    by (now destruct x).
  split.
  - intros t. split.
    + intros H.
      destruct (String.eqb_spec d "") as [|Hd]; [discriminate H|].
      destruct (String.eqb_spec ds "") as [|Hds]; [discriminate H|].
      destruct a as [|x]; [discriminate H|].
      cbn [InputSheet.not_amount InputSheet.Number_of orb] in H.
      destruct (Number.truthy x) eqn:Hx; [|discriminate H].
      destruct (String.eqb_spec c "") as [|Hc]; [discriminate H|].
      destruct (String.eqb_spec ac "") as [|Hac]; [discriminate H|].
      cbn in H. destruct (isNaN x); [discriminate H|].
      injection H as <-. cbn. repeat split; assumption.
    + intros (Hd & Hds & Hc & Hac & -> & Hx & ->).
      cbn [InputSheet.not_amount InputSheet.Number_of NewTransaction.amount].
      destruct (String.eqb_spec d ""); [contradiction|].
      destruct (String.eqb_spec ds ""); [contradiction|].
      destruct (String.eqb_spec c ""); [contradiction|].
      destruct (String.eqb_spec ac ""); [contradiction|].
      cbn [NewTransaction.amount] in Hx. rewrite Hx. cbn.
      destruct (isNaN _) eqn:HN; [|reflexivity].
      rewrite (E _ HN) in Hx. discriminate Hx.
  - destruct (_ || _) eqn:Hor; [discriminate|].
    destruct (isNaN _) eqn:HN; [|discriminate].
    exfalso. destruct a as [|x]; [discriminate HN|].
    cbn in HN.
    rewrite !orb_false_iff in Hor. destruct Hor as [[[_ Hna] _] _].
    cbn in Hna. rewrite (E x HN) in Hna. discriminate Hna.
Qed.

Lemma handleAdd_accepts_iff_witness :
  InputSheet.handleAdd
    (InputSheet.mkForm "2024-01-05" "Coffee" (InputSheet.Entered (of_Z 10))
                       "Food & Dining" "credit1")
  = inr Sample.purchase.
Proof.
  apply (proj1 (handleAdd_accepts_iff _)).
  repeat split; discriminate.
Defined.

(** ** Ledger mutations *)



Lemma state_eta st : mkState (transactions st) (accounts st) = st.
Proof. now destruct st. Qed.





(** X8: deleting the same id twice is deleting it once. *)
Theorem deleteTransaction_idempotent id st :
  deleteTransaction id (deleteTransaction id st) = deleteTransaction id st.
Proof.
  unfold deleteTransaction at 2 3.
  destruct (find_by_id (transactions st) id) as [t|] eqn:E.
  - unfold deleteTransaction. cbn [transactions].
    now rewrite find_by_id_filter.
  - unfold deleteTransaction. now rewrite E.
Qed.

Lemma map_same {A} (f : A -> A) (l : list A) :
  (forall x, In x l -> f x = x) -> map f l = l.
Proof.
  induction l as [|x l IH]; intros H; [reflexivity|].
  simpl. rewrite (H x (or_introl eq_refl)), IH; [reflexivity|].
  intros y Hy. apply H. now right.
Qed.

(** X9: an update that names an id no transaction has returns the state
    as it was, ledger and accounts. *)
Theorem updateTransaction_absent id updates st :
  Forall (fun t => Transaction.id t <> id) (transactions st) ->
  updateTransaction id updates st = st.
Proof.
  destruct st as [txs accs]. cbn [transactions accounts].
  intros H. unfold updateTransaction. cbn [transactions accounts]. f_equal.
  - unfold updateTransaction_transactions. apply map_same.
    intros t Ht. rewrite Forall_forall in H.
    apply list_elem_of_In, H in Ht.
    now destruct (String.eqb_spec (Transaction.id t) id).
  - unfold updateTransaction_accounts.
    rewrite (find_by_id_absent id _ H). now apply map_same.
Qed.

Lemma updateTransaction_absent_witness :
  updateTransaction "t9" (Sample.edit (of_Z 20) "checking1") Sample.entered
  = Sample.entered.
Proof.
  apply updateTransaction_absent.
  repeat constructor. vm_compute. discriminate.
Defined.

Lemma spread_id t updates : Transaction.id (spread t updates) = Transaction.id t.
Proof. reflexivity. Qed.

(** X10: an update never adds, removes or reorders transactions and never
    changes an id: each transaction with the given id has the supplied
    fields replaced, every other transaction is untouched, and looking the
    id up afterwards gives the rewritten transaction. *)
Theorem updateTransaction_ledger id updates st :
  let st' := updateTransaction id updates st in
  map Transaction.id (transactions st') = map Transaction.id (transactions st)
  /\ (forall (i : nat) (t : Transaction.t),
         transactions st !! i = Some t ->
         transactions st' !! i
         = Some (if String.eqb (Transaction.id t) id then spread t updates else t))
  /\ find_by_id (transactions st') id
     = (fun t => spread t updates) <$> find_by_id (transactions st) id.
Proof.
  cbn [updateTransaction transactions]. unfold updateTransaction_transactions.
  split; [|split].
  - rewrite map_map. apply map_ext. intros t.
    now destruct (String.eqb (Transaction.id t) id).
  - intros i t Ht. now rewrite list_lookup_map, Ht.
  - unfold find_by_id.
    induction (transactions st) as [|t l IH]; [reflexivity|].
    cbn [map List.find].
    destruct (String.eqb (Transaction.id t) id) eqn:E.
    + cbn zeta. rewrite spread_id, E. reflexivity.
    + rewrite E. exact IH.
Qed.

Lemma accounts_pass_same id txs accs :
  (forall t, find_by_id txs id = Some t -> isFinite (Transaction.amount t) = true) ->
  Forall2 Account.same accs (updateTransaction_accounts id txs accs).
Proof.
  intros Hfin. unfold updateTransaction_accounts.
  apply Forall2_map_r. intros a.
  destruct (find_by_id txs id) as [orig|]; [|apply same_refl].
  rewrite (sub_diag _ (Hfin orig eq_refl)).
  destruct (String.eqb _ _); [|apply same_refl].
  repeat split. apply add_zero_same.
Qed.

Lemma NoDup_map_eq {A B} (f : A -> B) (l : list A) x y :
  NoDup (map f l) -> In x l -> In y l -> f x = f y -> x = y.
Proof.
  induction l as [|z l IH]; intros Hn Hx Hy E; [destruct Hx|].
  cbn [map] in Hn. apply NoDup_cons in Hn as [Hz Hn].
  destruct Hx as [->|Hx], Hy as [->|Hy]; auto.
  - destruct Hz. rewrite E. apply list_elem_of_In, in_map, Hy.
  - destruct Hz. rewrite <- E. apply list_elem_of_In, in_map, Hx.
Qed.

Lemma find_by_id_unique t l :
  NoDup (map Transaction.id l) -> In t l ->
  find_by_id l (Transaction.id t) = Some t.
Proof.
  intros Hn Ht. unfold find_by_id.
  destruct (List.find _ l) as [t'|] eqn:E.
  - apply find_some in E as [Hin E]. apply String.eqb_eq in E.
    f_equal. eapply NoDup_map_eq; eassumption.
  - apply (find_none _ _ E) in Ht. now rewrite String.eqb_refl in Ht.
Qed.

(** X11: in a ledger with distinct ids, opening a row for editing and
    saving it untouched leaves the ledger as it was, and (when the row's
    amount is finite) every account too, up to the sign of a zero
    balance. *)
Theorem save_without_changes t st :
  NoDup (map Transaction.id (transactions st)) ->
  In t (transactions st) ->
  let st' := TransactionList.saveChanges (Transaction.id t)
               (TransactionList.startEditing t) st in
  transactions st' = transactions st
  /\ (isFinite (Transaction.amount t) = true ->
      Forall2 Account.same (accounts st) (accounts st')).
Proof.
  intros Hn Ht.
  cbn [TransactionList.saveChanges updateTransaction transactions accounts]. split.
  - unfold updateTransaction_transactions. apply map_same. intros t' Ht'.
    destruct (String.eqb_spec (Transaction.id t') (Transaction.id t)) as [E|_];
      [|reflexivity].
    rewrite (NoDup_map_eq Transaction.id _ t' t Hn Ht' Ht E). now destruct t.
  - intros Hfin. apply accounts_pass_same. intros t' Ht'.
    rewrite (find_by_id_unique t _ Hn Ht) in Ht'. now injection Ht' as <-.
Qed.

Lemma save_without_changes_witness :
  transactions (TransactionList.saveChanges "t1"
                  (TransactionList.startEditing (Sample.recorded (of_Z 10) "credit1"))
                  Sample.entered)
  = transactions Sample.entered.
Proof.
  apply (save_without_changes (Sample.recorded (of_Z 10) "credit1") Sample.entered).
  - vm_compute. repeat constructor. intros H. inversion H.
  - left. reflexivity.
Defined.

Lemma mutate_accounts_shape m st :
  map (fun a => (Account.id a, Account.name a, Account.type a)) (accounts (mutate st m))
  = map (fun a => (Account.id a, Account.name a, Account.type a)) (accounts st).
Proof.
  destruct m as [uuid t|uuid batch accountId|id|id updates];
    cbn [mutate addTransaction importTransactions updateTransaction accounts].
  - rewrite map_map. apply map_ext. intros a. now destruct (String.eqb _ _).
  - rewrite map_map. apply map_ext. intros a. now destruct (String.eqb _ _).
  - unfold deleteTransaction.
    destruct (find_by_id (transactions st) id) as [t|]; [|reflexivity].
    cbn [accounts]. rewrite map_map. apply map_ext. intros a.
    now destruct (String.eqb _ _).
  - unfold updateTransaction_accounts. rewrite map_map. apply map_ext. intros a.
    destruct (find_by_id (transactions st) id) as [t|]; [|reflexivity].
    now destruct (String.eqb (Account.id a) (Transaction.account t)).
Qed.

Lemma getAccountName_shape l l' accountId :
  map (fun a => (Account.id a, Account.name a, Account.type a)) l
  = map (fun a => (Account.id a, Account.name a, Account.type a)) l' ->
  TransactionList.getAccountName l accountId
  = TransactionList.getAccountName l' accountId.
Proof.
  unfold TransactionList.getAccountName.
  revert l'. induction l as [|a l IH]; intros [|a' l'] E; try discriminate E;
    [reflexivity|].
  cbn [map] in E. injection E as Ei En _ E.
  cbn [List.find]. rewrite Ei.
  destruct (String.eqb (Account.id a') accountId); [exact En|].
  apply IH, E.
Qed.

(** X12: no sequence of additions, imports, deletions and updates adds,
    removes, reorders, renames or retypes an account; so the account name
    shown for a transaction's account id never changes. *)
Theorem accounts_survive_mutations ms st :
  map (fun a => (Account.id a, Account.name a, Account.type a))
      (accounts (replay ms st))
  = map (fun a => (Account.id a, Account.name a, Account.type a)) (accounts st)
  /\ forall accountId,
      TransactionList.getAccountName (accounts (replay ms st)) accountId
      = TransactionList.getAccountName (accounts st) accountId.
Proof.
  assert (H : map (fun a => (Account.id a, Account.name a, Account.type a))
                  (accounts (replay ms st))
              = map (fun a => (Account.id a, Account.name a, Account.type a))
                    (accounts st)).
  { unfold replay. revert st. induction ms as [|m ms IH]; intros st; [reflexivity|].
    cbn [fold_left]. rewrite IH. apply mutate_accounts_shape. }
  split; [exact H|]. intros accountId. now apply getAccountName_shape.
Qed.

Lemma imported_ids (uuid : nat -> string) accountId batch :
  forall g : nat -> nat,
    map Transaction.id
        (imap (fun i t =>
                 Transaction.mk (uuid (g i))
                   (NewTransaction.date t) (NewTransaction.description t)
                   (categorizeTransaction (NewTransaction.description t))
                   (NewTransaction.amount t) accountId) batch)
    = map (fun i => uuid (g i)) (seq 0 (length batch)).
Proof.
  induction batch as [|t batch IH]; intros g; [reflexivity|].
  cbn [imap map length seq]. f_equal.
  change (imap ((fun i t0 => Transaction.mk (uuid (g i)) (NewTransaction.date t0)
                    (NewTransaction.description t0)
                    (categorizeTransaction (NewTransaction.description t0))
                    (NewTransaction.amount t0) accountId) ∘ S) batch)
    with (imap (fun i t0 => Transaction.mk (uuid ((g ∘ S) i)) (NewTransaction.date t0)
                    (NewTransaction.description t0)
                    (categorizeTransaction (NewTransaction.description t0))
                    (NewTransaction.amount t0) accountId) batch).
  rewrite IH, <- seq_shift, map_map. reflexivity.
Qed.

Lemma NoDup_map_filter {A B} (f : A -> B) (p : A -> bool) (l : list A) :
  NoDup (map f l) -> NoDup (map f (List.filter p l)).
Proof.
  induction l as [|x l IH]; intros H; [exact H|].
  cbn [map] in H. apply NoDup_cons in H as [Hx H].
  cbn [List.filter]. destruct (p x); [|now apply IH].
  cbn [map]. apply NoDup_cons. split; [|now apply IH].
  intros Hin. apply Hx.
  apply list_elem_of_In, in_map_iff in Hin as [y [E Hy]].
  apply filter_In in Hy as [Hy _].
  rewrite <- E. apply list_elem_of_In, in_map, Hy.
Qed.

Lemma mutate_ids m st :
  exists kept,
    map Transaction.id (transactions (mutate st m)) = (kept ++ drawn m)%list
    /\ (forall x, x ∈ kept -> x ∈ map Transaction.id (transactions st))
    /\ (NoDup (map Transaction.id (transactions st)) -> NoDup kept).
Proof.
  destruct m as [uuid t|uuid batch accountId|id|id updates]; cbn [mutate drawn].
  - exists (map Transaction.id (transactions st)).
    cbn [addTransaction transactions]. now rewrite map_app.
  - exists (map Transaction.id (transactions st)).
    cbn [importTransactions transactions].
    rewrite map_app, (imported_ids uuid accountId batch (fun i => i)). auto.
  - unfold deleteTransaction.
    destruct (find_by_id (transactions st) id) as [t|].
    + eexists. cbn [transactions]. rewrite app_nil_r.
      split; [reflexivity|]. split; [|apply NoDup_map_filter].
      intros x Hx. apply list_elem_of_In, in_map_iff in Hx as [y [<- Hy]].
      apply filter_In in Hy as [Hy _]. apply list_elem_of_In, in_map, Hy.
    + exists (map Transaction.id (transactions st)). rewrite app_nil_r. auto.
  - exists (map Transaction.id (transactions st)). rewrite app_nil_r.
    cbn [updateTransaction transactions]. unfold updateTransaction_transactions.
    split; [|auto].
    rewrite map_map. apply map_ext. intros t.
    now destruct (String.eqb (Transaction.id t) id).
Qed.

(** X13: ids stay unique.  If the ledger's ids are distinct and the ids
    drawn by a sequence of mutations are distinct from them and from one
    another, the ledger's ids are distinct after the sequence. *)
Theorem ids_stay_unique ms st :
  NoDup (map Transaction.id (transactions st) ++ concat (map drawn ms)) ->
  NoDup (map Transaction.id (transactions (replay ms st))).
Proof.
  unfold replay. revert st. induction ms as [|m ms IH]; intros st H.
  - cbn in H. now rewrite app_nil_r in H.
  - cbn [fold_left]. apply IH.
    cbn [map concat] in H.
    destruct (mutate_ids m st) as [kept [-> [Hsub Hnd]]].
    apply NoDup_app in H as [H1 [H2 H3]].
    rewrite <- app_assoc. apply NoDup_app.
    split; [now apply Hnd|]. split; [|exact H3].
    intros x Hx. apply H2, Hsub, Hx.
Qed.

Lemma ids_stay_unique_witness :
  NoDup (map Transaction.id
           (transactions
              (replay [MImport (fun i => if Nat.eqb i 0 then "t2" else "t3")
                         [Sample.purchase; Sample.purchase] "savings1";
                       MDelete "t1"; MAdd "t4" Sample.purchase]
                      Sample.entered))).
Proof.
  apply ids_stay_unique. vm_compute.
  repeat (apply NoDup_cons_2;
          [rewrite ?elem_of_cons, elem_of_nil; intuition discriminate|]).
  apply NoDup_nil_2.
Defined.

(** X14: a bulk import of records whose descriptions are strings appends
    one transaction per record, in order, after the existing ones, which it
    does not touch: the new transaction takes date, description and amount
    from its record, the category from the categorizer and the account from
    the import.  A record whose description is not a string makes the
    import throw, and nothing is appended. *)
Theorem importTransactions_ledger uuid batch accountId st :
  (Forall (fun r => Imported.is_text r = true) batch ->
   exists st',
     Runtime.importTransactions uuid batch accountId st = Normal st'
     /\ length (transactions st') = (length (transactions st) + length batch)%nat
     /\ (forall i t, transactions st !! i = Some t -> transactions st' !! i = Some t)
     /\ forall (i : nat) (r : Imported.t) (description : string),
         batch !! i = Some r ->
         Imported.description r = JStr description ->
         transactions st' !! (length (transactions st) + i)%nat
         = Some (Transaction.mk (uuid i) (Imported.date r) description
                   (categorizeTransaction description)
                   (Imported.amount r) accountId))
  /\ (Exists (fun r => Imported.is_text r = false) batch ->
      Runtime.importTransactions uuid batch accountId st = Throw
      /\ Runtime.handled (Runtime.importTransactions uuid batch accountId st) st = st).
Proof.
  unfold Runtime.importTransactions. split.
  - intros H.
    destruct (transactionsWithIds_texts uuid accountId batch H 0%nat) as [l [-> [Hl Hi]]].
    eexists. split; [reflexivity|]. cbn [transactions]. split; [|split].
    + now rewrite length_app, Hl.
    + intros i t Ht. now apply lookup_app_l_Some.
    + intros i r s Hr Hs. rewrite lookup_app_r by lia.
      replace (length (transactions st) + i - length (transactions st))%nat with i by lia.
      exact (Hi i r s Hr Hs).
  - intros H. now rewrite (transactionsWithIds_throws uuid accountId batch H 0%nat).
Qed.

Lemma importTransactions_ledger_witness :
  (exists st',
      Runtime.importTransactions (fun _ => "t2") [SampleImport.netflix]
        "savings1" Sample.entered = Normal st'
      /\ transactions st' !! 1%nat
         = Some (Transaction.mk "t2" "2024-02-01" "Netflix" "Entertainment"
                   (of_Z (-15)) "savings1"))
  /\ Runtime.importTransactions (fun _ => "t2") [SampleImport.netflix; SampleImport.seven]
       "savings1" Sample.entered = Throw.
Proof.
  split.
  - destruct (proj1 (importTransactions_ledger (fun _ => "t2") [SampleImport.netflix]
                       "savings1" Sample.entered))
      as [st' [E [_ [_ H]]]].
    + repeat constructor.
    + exists st'. split; [exact E|].
      exact (H 0%nat SampleImport.netflix "Netflix" eq_refl eq_refl).
  - apply (proj2 (importTransactions_ledger (fun _ => "t2")
                    [SampleImport.netflix; SampleImport.seven]
                    "savings1" Sample.entered)).
    apply Exists_cons_tl, Exists_cons_hd. reflexivity.
Defined.

(** X15: a transaction entered for an account id that no account has
    joins the ledger and no balance changes; so do the records of an import
    into such an id when the import completes: the amounts are attributed
    to no account. *)
Theorem unknown_account_is_orphaned accountId st :
  Forall (fun a => Account.id a <> accountId) (accounts st) ->
  (forall uuid t,
      NewTransaction.account t = accountId ->
      accounts (addTransaction uuid t st) = accounts st
      /\ length (transactions (addTransaction uuid t st))
         = S (length (transactions st)))
  /\ (forall uuid batch st',
         Runtime.importTransactions uuid batch accountId st = Normal st' ->
         accounts st' = accounts st
         /\ length (transactions st')
            = (length (transactions st) + length batch)%nat).
Proof.
  intros H.
  assert (E : forall a, In a (accounts st) -> String.eqb (Account.id a) accountId = false).
  { intros a Ha. rewrite Forall_forall in H. apply list_elem_of_In, H in Ha.
    now destruct (String.eqb_spec (Account.id a) accountId). }
  split.
  - intros uuid t <-. cbn [addTransaction accounts transactions]. split.
    + apply map_same. intros a Ha. cbn. now rewrite (E a Ha).
    + rewrite length_app. cbn. lia.
  - intros uuid batch st'. unfold Runtime.importTransactions.
    destruct (texts_or_not batch) as [Ht|Ht].
    + destruct (transactionsWithIds_texts uuid accountId batch Ht 0%nat) as [l [-> [Hl _]]].
      intros Hn. injection Hn as <-. cbn [accounts transactions]. split.
      * apply map_same. intros a Ha. now rewrite (E a Ha).
      * now rewrite length_app, Hl.
    + rewrite (transactionsWithIds_throws uuid accountId batch Ht 0%nat).
      intros Hn. discriminate Hn.
Qed.

Lemma unknown_account_is_orphaned_witness :
  exists st',
    Runtime.importTransactions (fun _ => "t2") [SampleImport.coffee] "cash" Sample.entered
    = Normal st'
    /\ accounts st' = accounts Sample.entered
    /\ length (transactions st') = 2%nat.
Proof.
  eexists. split; [reflexivity|].
  apply (proj2 (unknown_account_is_orphaned "cash" Sample.entered
                  ltac:(repeat constructor; vm_compute; discriminate))
           (fun _ => "t2") [SampleImport.coffee]).
  reflexivity.
Defined.

(** ** Balances and NaN *)

Lemma binary_normalize_not_NaN m e s :
  isNaN (binary_normalize prec emax m e s) = false.
Proof.
  destruct m as [|p|p]; cbn [binary_normalize]; [reflexivity| |];
    unfold binary_round;
    destruct (shl_align _ _ _) as [mz ez];
    match goal with
    | |- context [binary_round_aux _ _ ?sx _ _ _] =>
        pose proof (binary_round_aux_sign sx (Z.pos mz) ez loc_Exact) as H
    end;
    destruct (binary_round_aux _ _ _ _ _ _); try reflexivity; now destruct H.
Qed.

Lemma add_finite_not_NaN x y :
  isNaN x = false -> isFinite y = true -> isNaN (add x y) = false.
Proof.
  destruct x as [[]|[]| |sx mx ex]; try discriminate;
    destruct y as [[]|[]| |sy my ey]; try discriminate; intros _ _;
    try reflexivity.
  apply binary_normalize_not_NaN.
Qed.

Lemma sub_finite_not_NaN x y :
  isNaN x = false -> isFinite y = true -> isNaN (sub x y) = false.
Proof.
  destruct x as [[]|[]| |sx mx ex]; try discriminate;
    destruct y as [[]|[]| |sy my ey]; try discriminate; intros _ _;
    try reflexivity.
  apply binary_normalize_not_NaN.
Qed.

Lemma Forall_map_intro {A B} (P : B -> Prop) (f : A -> B) (l : list A) :
  Forall (fun x => P (f x)) l -> Forall P (map f l).
Proof. induction 1; constructor; auto. Qed.

Lemma Forall_filter_intro {A} (P : A -> Prop) (p : A -> bool) (l : list A) :
  Forall P l -> Forall P (List.filter p l).
Proof.
  induction 1 as [|x l Hx _ IH]; [constructor|].
  cbn. destruct (p x); [constructor|]; auto.
Qed.

Lemma mutate_keeps_numbers m st :
  finite_input m ->
  Forall (fun t => isFinite (Transaction.amount t) = true) (transactions st) ->
  Forall (fun a => isNaN (Account.balance a) = false) (accounts st) ->
  Forall (fun t => isFinite (Transaction.amount t) = true) (transactions (mutate st m))
  /\ Forall (fun a => isNaN (Account.balance a) = false) (accounts (mutate st m)).
Proof.
  intros Hm Ht Ha.
  destruct m as [uuid t|uuid batch accountId|id|id updates];
    cbn [mutate finite_input] in *.
  - cbn [addTransaction transactions accounts]. split.
    + apply Forall_app. split; [exact Ht|]. now repeat constructor.
    + apply Forall_map_intro. eapply Forall_impl; [exact Ha|].
      intros a Hb. cbn beta. destruct (String.eqb _ _); [|exact Hb].
      cbn. now apply add_finite_not_NaN.
  - destruct Hm as [Hb Htot].
    cbn [importTransactions transactions accounts]. split.
    + apply Forall_app. split; [exact Ht|].
      apply Forall_lookup. intros i t Hi.
      rewrite list_lookup_imap in Hi.
      destruct (batch !! i) as [r|] eqn:Hr; [|discriminate Hi].
      injection Hi as <-. cbn.
      exact (proj1 (Forall_lookup _ _) Hb i r Hr).
    + apply Forall_map_intro. eapply Forall_impl; [exact Ha|].
      intros a Hbal. cbn beta. destruct (String.eqb _ _); [|exact Hbal].
      cbn. now apply add_finite_not_NaN.
  - unfold deleteTransaction.
    destruct (find_by_id (transactions st) id) as [t|] eqn:E; [|now split].
    cbn [transactions accounts]. split; [now apply Forall_filter_intro|].
    apply find_some in E as [Hin _].
    rewrite Forall_forall in Ht. apply list_elem_of_In, Ht in Hin.
    apply Forall_map_intro. eapply Forall_impl; [exact Ha|].
    intros a Hbal. cbn beta. destruct (String.eqb _ _); [|exact Hbal].
    cbn. now apply sub_finite_not_NaN.
  - cbn [updateTransaction transactions accounts]. split.
    + unfold updateTransaction_transactions.
      apply Forall_map_intro. eapply Forall_impl; [exact Ht|].
      intros t Hfin. cbn beta. destruct (String.eqb _ _); [|exact Hfin].
      cbn. now destruct (Updates.amount updates).
    + unfold updateTransaction_accounts.
      destruct (find_by_id (transactions st) id) as [t|] eqn:E.
      * apply find_some in E as [Hin _].
        rewrite Forall_forall in Ht. apply list_elem_of_In, Ht in Hin.
        rewrite (sub_diag _ Hin).
        apply Forall_map_intro. eapply Forall_impl; [exact Ha|].
        intros a Hbal. cbn beta.
        destruct (String.eqb _ _); [|exact Hbal].
        cbn. now apply add_finite_not_NaN.
      * apply Forall_map_intro. exact Ha.
Qed.

(** X16: as long as every amount that is entered, imported or saved by an
    edit is a finite number (and each import's total is), every
    transaction keeps a finite amount and no balance becomes NaN, however
    the four mutations are sequenced. *)
Theorem finite_amounts_keep_balances_numbers ms st :
  Forall finite_input ms ->
  Forall (fun t => isFinite (Transaction.amount t) = true) (transactions st) ->
  Forall (fun a => isNaN (Account.balance a) = false) (accounts st) ->
  Forall (fun t => isFinite (Transaction.amount t) = true)
         (transactions (replay ms st))
  /\ Forall (fun a => isNaN (Account.balance a) = false) (accounts (replay ms st)).
Proof.
  unfold replay. intros Hms. revert st.
  induction Hms as [|m ms Hm _ IH]; intros st Ht Ha; [now split|].
  cbn [fold_left].
  destruct (mutate_keeps_numbers m st Hm Ht Ha) as [Ht' Ha'].
  now apply IH.
Qed.

Lemma finite_amounts_keep_balances_numbers_witness :
  Forall (fun a => isNaN (Account.balance a) = false)
         (accounts (replay [MAdd "t1" Sample.purchase;
                            MUpdate "t1" (Sample.edit (of_Z 20) "checking1");
                            MImport (fun _ => "t2") [Sample.purchase] "savings1";
                            MDelete "t1"] initial)).
Proof.
  apply finite_amounts_keep_balances_numbers.
  - repeat constructor.
  - constructor.
  - repeat constructor.
Defined.

(** ** Which rows an import accepts *)

Lemma read_digits_count s :
  forall acc n, exists v k r, read_digits acc n s = (v, (n + k)%nat, r).
Proof.
  induction s as [|c s IH]; intros acc n.
  - exists acc, 0%nat, EmptyString. cbn. now rewrite Nat.add_0_r.
  - cbn [read_digits]. destruct (digit_of c) as [d|].
    + destruct (IH (10 * acc + d) (S n)) as (v & k & r & E).
      exists v, (S k), r. rewrite E. f_equal. f_equal. lia.
    + exists acc, 0%nat, (String c s). now rewrite Nat.add_0_r.
Qed.

Lemma read_digits_some acc s :
  ImportSpec.first_is_digit s = true ->
  exists v k r, read_digits acc 0 s = (v, S k, r).
Proof.
  destruct s as [|c s]; [discriminate|].
  cbn [ImportSpec.first_is_digit read_digits]. unfold digit_of. intros ->.
  destruct (read_digits_count s (10 * acc + (Z.of_N (Str.code c) - 48)) 1)
    as (v & k & r & E).
  exists v, k, r. exact E.
Qed.

Lemma of_decimal_not_NaN neg m e : isNaN (of_decimal neg m e) = false.
Proof.
  unfold of_decimal. destruct m as [|p|p]; try reflexivity.
  destruct e as [|k|k]; try apply binary_normalize_not_NaN.
  unfold SFdiv_core_binary.
  set (e' := Z.min _ _). set (m' := match (0 - 0 - e') with
                                    | 0 => Z.pos p
                                    | Z.pos _ => Z.shiftl (Z.pos p) (0 - 0 - e')
                                    | Z.neg _ => 0
                                    end).
  assert (Hm : 0 <= m').
  { subst m'. destruct (0 - 0 - e'); try lia. now apply Z.shiftl_nonneg. }
  assert (Hq : 0 <= m' / Z.pow_pos 10 k).
  { apply Z.div_pos; [exact Hm|].
    change (Z.pow_pos 10 k) with (10 ^ Z.pos k). now apply Z.pow_pos_nonneg. }
  unfold Z.div in Hq.
  destruct (Z.div_eucl m' (Z.pow_pos 10 k)) as [q r].
  pose proof (binary_round_aux_sign neg q e' (new_location (Z.pow_pos 10 k) r) Hq) as H.
  destruct (binary_round_aux _ _ _ _ _ _); try reflexivity. destruct H.
Qed.

Lemma read_literal_number neg u :
  String.prefix "Infinity" u
  || ImportSpec.first_is_digit u
  || match after "." u with
     | Some r => ImportSpec.first_is_digit r
     | None => false
     end = true ->
  isNaN (read_literal neg u) = false.
Proof.
  intros H. unfold read_literal.
  destruct (String.prefix "Infinity" u); [reflexivity|].
  cbn [orb] in H. unfold read_unsigned.
  destruct (ImportSpec.first_is_digit u) eqn:Hd.
  - destruct (read_digits_some 0 u Hd) as (v & k & r & ->).
    destruct (after "." r) as [r'|]; [|apply of_decimal_not_NaN].
    destruct (read_digits v 0 r') as [[v2 n2] r2]. apply of_decimal_not_NaN.
  - cbn [orb] in H. rewrite (read_digits_no_digit 0 u Hd).
    destruct (after "." u) as [r|]; [|discriminate H].
    destruct (read_digits_some 0 r H) as (v & k & r' & ->).
    apply of_decimal_not_NaN.
Qed.

Lemma parseFloat_NaN s : isNaN (parseFloat s) = negb (ImportSpec.starts_number s).
Proof.
  destruct (ImportSpec.starts_number s) eqn:E.
  - unfold ImportSpec.starts_number in E. unfold parseFloat.
    destruct (read_sign (Str.trimStart s)) as [neg u].
    now apply read_literal_number.
  - now rewrite (parseFloat_no_number s E).
Qed.

Lemma text_amount_NaN field :
  isNaN (ImportSpec.text_amount field)
  = match field with
    | Some a => negb (String.eqb a "") && negb (ImportSpec.starts_number a)
    | None => false
    end.
Proof.
  destruct field as [a|]; [|reflexivity].
  cbn [ImportSpec.text_amount].
  destruct (String.eqb a ""); [reflexivity|].
  destruct (ImportSpec.starts_number a) eqn:E; [|reflexivity].
  rewrite parseFloat_NaN, E. reflexivity.
Qed.

Lemma keep_parseCSV_row headers line :
  keep (parseCSV_row headers line)
  = match ImportSpec.cell headers line "Date" with
    | Some d => negb (String.eqb d "")
    | None => false
    end
    && negb (isNaN (ImportSpec.text_amount (ImportSpec.cell headers line "Amount"))).
Proof.
  rewrite text_amount_parseFloat.
  unfold keep, parseCSV_row. cbn [Parsed.date Parsed.amount Json.truthy].
  rewrite !field_or_cell.
  destruct (ImportSpec.cell headers line "Date") as [d|]; cbn;
    [|reflexivity].
  destruct (String.eqb d "") eqn:E; cbn; [reflexivity|].
  rewrite E. cbn. now destruct (isNaN _).
Qed.

(** X17: a row of delimited text is accepted exactly when the cell under
    the (last) [Date] header is present and not blank, and the cell under
    the (last) [Amount] header is absent, blank, or begins (after white
    space and one optional sign) with a digit, a dot and a digit, or
    [Infinity]. *)
Theorem csv_row_accepted_iff headers line :
  keep (parseCSV_row headers line) = true
  <-> (exists d, ImportSpec.cell headers line "Date" = Some d /\ d <> "")
      /\ (forall a, ImportSpec.cell headers line "Amount" = Some a ->
                    a = "" \/ ImportSpec.starts_number a = true).
Proof.
  rewrite keep_parseCSV_row, text_amount_NaN, andb_true_iff.
  assert (A1 : match ImportSpec.cell headers line "Date" with
               | Some d => negb (String.eqb d "")
               | None => false
               end = true
               <-> exists d, ImportSpec.cell headers line "Date" = Some d /\ d <> "").
  { destruct (ImportSpec.cell headers line "Date") as [d|].
    - destruct (String.eqb_spec d "") as [->|Hd]; cbn; split.
      + discriminate.
      + intros (d' & E & Hd'). now injection E as <-.
      + intros _. now exists d.
      + reflexivity.
    - split; [discriminate|]. now intros (d & E & _). }
  assert (A2 : negb match ImportSpec.cell headers line "Amount" with
                    | Some a => negb (String.eqb a "")
                                && negb (ImportSpec.starts_number a)
                    | None => false
                    end = true
               <-> forall a, ImportSpec.cell headers line "Amount" = Some a ->
                             a = "" \/ ImportSpec.starts_number a = true).
  { destruct (ImportSpec.cell headers line "Amount") as [a|].
    - destruct (String.eqb_spec a "") as [->|Ha]; cbn.
      + split; [intros _ a' E; injection E as <-; now left | reflexivity].
      + destruct (ImportSpec.starts_number a) eqn:Hs; cbn; split.
        * intros _ a' E. injection E as <-. now right.
        * reflexivity.
        * discriminate.
        * intros H. destruct (H a eq_refl) as [->|H'];
            [now destruct Ha | rewrite Hs in H'; discriminate H'].
    - split; [discriminate | reflexivity]. }
  rewrite A1, A2. reflexivity.
Qed.

Lemma last_index_absent key headers :
  ~ In key headers -> ImportSpec.last_index key headers = None.
Proof.
  induction headers as [|h hs IH]; intros H; [reflexivity|].
  cbn. rewrite IH by (intros Hin; apply H; now right).
  destruct (String.eqb_spec h key) as [->|_]; [|reflexivity].
  destruct H. now left.
Qed.

(** X18: delimited text whose header line has no column named exactly
    [Date] (after trimming) imports nothing: every row is dropped by the
    validation. *)
Theorem csv_without_Date_imports_nothing text :
  ~ In "Date" (map Str.trim (Str.split "," (hd "" (Str.split LF (Str.trim text))))) ->
  List.filter keep (parseCSV text) = [].
Proof.
  intros H. unfold parseCSV.
  set (headers := map Str.trim (Str.split "," (hd "" (Str.split LF (Str.trim text))))) in *.
  induction (tl (Str.split LF (Str.trim text))) as [|line lines IH]; [reflexivity|].
  cbn [map List.filter]. rewrite keep_parseCSV_row.
  unfold ImportSpec.cell at 1. rewrite (last_index_absent "Date" headers H).
  exact IH.
Qed.

Lemma csv_without_Date_imports_nothing_witness :
  List.filter keep
    (parseCSV ("date,Description,Amount" +:+ String LF "2024-01-05,Coffee,-4.50")) = [].
Proof.
  apply csv_without_Date_imports_nothing.
  vm_compute. intuition discriminate.
Defined.

Lemma csv_row_accepted_iff_witness :
  keep (parseCSV_row ["Date"; "Description"; "Amount"] "2024-01-05, Coffee , -4.50")
  = true.
Proof.
  apply (proj2 (csv_row_accepted_iff _ _)). split.
  - exists "2024-01-05". split; [vm_compute; reflexivity | discriminate].
  - intros a E. vm_compute in E. injection E as <-. right. vm_compute. reflexivity.
Defined.

Lemma mapM_length {A B} (f : A -> completion B) l :
  forall rs, mapM f l = Normal rs -> length rs = length l.
Proof.
  induction l as [|x l IH]; intros rs H.
  - now injection H as <-.
  - cbn in H. destruct (f x) as [y|]; [|discriminate H]. cbn in H.
    destruct (mapM f l) as [ys|]; [|discriminate H]. cbn in H.
    injection H as <-. cbn. now rewrite (IH ys eq_refl).
Qed.

Lemma mapM_throw {A B} (f : A -> completion B) l x :
  In x l -> f x = Throw -> mapM f l = Throw.
Proof.
  intros Hin Hx. induction l as [|y l IH]; [destruct Hin|].
  cbn. destruct Hin as [->|Hin].
  - now rewrite Hx.
  - destruct (f y); [|reflexivity]. cbn. now rewrite (IH Hin).
Qed.

(** X19: the JSON decoder is all or nothing, whatever the host's
    [JSON.parse] and number printing: it returns either no record or one
    record per element of the array; and a single [null] element makes it
    return no record at all. *)
Theorem parseYNAB_all_or_nothing
        (JSON_parse : string -> option json) (Number_toString : number -> string)
        (text : string) :
  (parseYNAB JSON_parse Number_toString text = []
   \/ exists items,
       JSON_parse text = Some (JArr items)
       /\ length (parseYNAB JSON_parse Number_toString text) = length items)
  /\ (forall items,
         JSON_parse text = Some (JArr items) -> In JNull items ->
         parseYNAB JSON_parse Number_toString text = []).
Proof.
  unfold parseYNAB, parseYNAB_try. split.
  - destruct (JSON_parse text) as [[| | | |items|]|]; try (now left).
    destruct (mapM _ items) as [rs|] eqn:E; [|now left].
    right. exists items. split; [reflexivity|]. now apply mapM_length in E.
  - intros items -> Hin.
    now rewrite (mapM_throw _ items JNull Hin eq_refl).
Qed.

Lemma parseYNAB_all_or_nothing_witness :
  parseYNAB SampleHost.JSON_parse SampleHost.Number_toString "[{}, null, {}]" = [].
Proof.
  apply (proj2 (parseYNAB_all_or_nothing SampleHost.JSON_parse
                  SampleHost.Number_toString "[{}, null, {}]")
           [JObj []; JNull; JObj []]).
  - vm_compute. reflexivity.
  - right. now left.
Defined.

Lemma parseCSV_fields r text :
  In r (parseCSV text) ->
  JStr (CsvImport.text_of (Parsed.date r)) = Parsed.date r
  /\ JStr (CsvImport.text_of (Parsed.description r)) = Parsed.description r.
Proof.
  unfold parseCSV. intros H. apply in_map_iff in H as [line [<- _]].
  split; reflexivity.
Qed.

(** X24: importing delimited text into a selected account appends, after
    the existing transactions, one transaction per accepted row; each has
    a non-empty date, an amount that is not NaN, the selected account and
    the category the categorizer gives its description.  With no account
    selected nothing changes. *)
Theorem csv_import_end_to_end uuid selectedAccount text st :
  CsvImport.handleImport uuid "" text st = st
  /\ (selectedAccount <> "" ->
      exists new,
        transactions (CsvImport.handleImport uuid selectedAccount text st)
        = (transactions st ++ new)%list
        /\ length new = length (List.filter keep (parseCSV text))
        /\ Forall (fun t =>
                     Transaction.date t <> ""
                     /\ isNaN (Transaction.amount t) = false
                     /\ Transaction.account t = selectedAccount
                     /\ Transaction.category t
                        = categorizeTransaction (Transaction.description t))
                  new).
Proof.
  split; [reflexivity|]. intros Hacc.
  unfold CsvImport.handleImport.
  destruct (String.eqb_spec selectedAccount ""); [contradiction|].
  cbn [importTransactions transactions].
  eexists. split; [reflexivity|]. split.
  - unfold CsvImport.batch. now rewrite length_imap, length_map.
  - apply Forall_lookup. intros i t Hi.
    rewrite list_lookup_imap in Hi.
    destruct (CsvImport.batch text !! i) as [n'|] eqn:Hb; [|discriminate Hi].
    injection Hi as <-. cbn.
    unfold CsvImport.batch in Hb. rewrite list_lookup_map in Hb.
    destruct (List.filter keep (parseCSV text) !! i) as [r|] eqn:Hr; [|discriminate Hb].
    injection Hb as <-. cbn.
    apply list_elem_of_lookup_2, list_elem_of_In, filter_In in Hr as [Hin Hk].
    destruct (parseCSV_fields r text Hin) as [Hd _].
    unfold keep in Hk. rewrite <- Hd in Hk. cbn in Hk.
    destruct (String.eqb_spec (CsvImport.text_of (Parsed.date r)) "") as [|Hne];
      [discriminate Hk|].
    cbn in Hk. destruct (isNaN (Parsed.amount r)); [discriminate Hk|].
    repeat split. exact Hne.
Qed.

Lemma csv_import_end_to_end_witness :
  exists new,
    transactions (CsvImport.handleImport (fun _ => "t2") "savings1"
                    ("Date,Description,Amount" +:+ String LF "2024-01-05,Coffee,-4.50")
                    Sample.entered)
    = (transactions Sample.entered ++ new)%list
    /\ length new = 1%nat.
Proof.
  destruct (proj2 (csv_import_end_to_end (fun _ => "t2") "savings1"
                     ("Date,Description,Amount" +:+ String LF "2024-01-05,Coffee,-4.50")
                     Sample.entered)) as (new & H1 & H2 & _); [discriminate|].
  exists new. split; [exact H1|]. rewrite H2. vm_compute. reflexivity.
Defined.

(** ** Dashboard cards *)

Lemma binary_round_aux_abs m e l :
  SFabs (binary_round_aux prec emax true m e l) = binary_round_aux prec emax false m e l.
Proof.
  unfold binary_round_aux.
  destruct (shr_fexp prec emax m e l) as [mrs' e'].
  destruct (shr_fexp prec emax _ e' loc_Exact) as [mrs'' e''].
  destruct (shr_m mrs''); try reflexivity.
  now destruct (Z.leb e'' (emax - prec)).
Qed.

Lemma lt_zero_nonpos x : lt x zero = true -> nonpos x = true /\ Number.truthy x = true.
Proof. destruct x as [[]|[]| |[] m e]; try discriminate; now split. Qed.

Lemma add_negative x y :
  nonpos x = true -> lt y zero = true ->
  nonpos (add x y) = true /\ abs (add x y) = add (abs x) (abs y).
Proof.
  destruct x as [s|[]| |[] mx ex]; try discriminate;
    destruct y as [[]|[]| |[] my ey]; try discriminate; intros _ _;
    try (split; reflexivity); try (destruct s; split; reflexivity).
  unfold add, abs, SFadd, cond_Zopp. cbn [SFabs].
  set (ez := Z.min ex ey).
  change (- Z.pos (shl_align mx ex ez).1 + - Z.pos (shl_align my ey ez).1)
    with (Z.neg ((shl_align mx ex ez).1 + (shl_align my ey ez).1)).
  change (Z.pos (shl_align mx ex ez).1 + Z.pos (shl_align my ey ez).1)
    with (Z.pos ((shl_align mx ex ez).1 + (shl_align my ey ez).1)).
  unfold binary_normalize, binary_round.
  destruct (shl_align _ ez _) as [mz ez'].
  rewrite <- binary_round_aux_abs. split; [|reflexivity].
  pose proof (binary_round_aux_sign true (Z.pos mz) ez' loc_Exact) as H.
  destruct (binary_round_aux _ _ _ _ _ _) as [s|s| |s m e];
    [ reflexivity
    | rewrite (H ltac:(lia)); reflexivity
    | destruct H; lia
    | rewrite (H ltac:(lia)); reflexivity ].
Qed.

Lemma expenses_fold l :
  forall e, nonpos e = true ->
    abs (fold_left (fun sum t => add sum (Transaction.amount t))
           (List.filter (fun t => lt (Transaction.amount t) zero) l) e)
    = fold_left (fun sum t => add sum (abs (Transaction.amount t)))
        (List.filter (fun t => lt (Transaction.amount t) zero) l) (abs e).
Proof.
  induction l as [|t l IH]; intros e He; [reflexivity|].
  cbn [List.filter]. destruct (lt (Transaction.amount t) zero) eqn:Ht; [|now apply IH].
  cbn [fold_left].
  destruct (add_negative e (Transaction.amount t) He Ht) as [Hn <-].
  now apply IH.
Qed.

(** X20: the Expenses card shows the magnitude of the expenses sum that
    enters the net balance: [monthlyExpenses] is [abs(expenses)] for every
    list of transactions, adding the magnitudes and adding the negative
    amounts round alike. *)
Theorem monthlyExpenses_is_abs_expenses filtered :
  Cards.monthlyExpenses filtered = abs (Dashboard.expenses filtered).
Proof.
  unfold Cards.monthlyExpenses, Dashboard.expenses.
  now rewrite expenses_fold.
Qed.

Lemma gt_zero_nonneg x : gt x zero = true -> nonneg x = true.
Proof. destruct x as [[]|[]| |[] m e]; try discriminate; reflexivity. Qed.

Lemma fold_nonneg {A} (f : A -> number) (l : list A) :
  Forall (fun x => nonneg (f x) = true) l ->
  forall acc, nonneg acc = true ->
    nonneg (fold_left (fun sum x => add sum (f x)) l acc) = true.
Proof.
  induction 1 as [|x l Hx _ IH]; intros acc Ha; [exact Ha|].
  cbn. apply IH. now apply add_nonneg.
Qed.

Lemma Forall_filter_true {A} (p : A -> bool) (l : list A) :
  Forall (fun x => p x = true) (List.filter p l).
Proof.
  induction l as [|x l IH]; [constructor|].
  cbn. destruct (p x) eqn:E; [constructor|]; auto.
Qed.

(** X21: whatever the transactions (NaN and infinite amounts included),
    the income sum and the expenses magnitude are [+0], a positive number
    or [+Infinity]: never negative, never [-0], never NaN.  So is every
    entry of the category breakdown, when no category is a property name
    that the accumulator object inherits. *)
Theorem dashboard_totals_nonneg filtered :
  nonneg (Dashboard.income filtered) = true
  /\ nonneg (Cards.monthlyIncome filtered) = true
  /\ nonneg (Cards.monthlyExpenses filtered) = true
  /\ (Forall (fun t => Dashboard.plain_key (Transaction.category t)) filtered ->
      forall c v, Dashboard.categoryTotals filtered !! c = Some v -> nonneg v = true).
Proof.
  assert (Hi : nonneg (Dashboard.income filtered) = true).
  { unfold Dashboard.income. apply fold_nonneg; [|reflexivity].
    eapply Forall_impl; [apply Forall_filter_true|].
    intros t Ht. now apply gt_zero_nonneg. }
  split; [exact Hi|]. split; [exact Hi|]. split.
  - unfold Cards.monthlyExpenses.
    apply (fold_nonneg (fun t => abs (Transaction.amount t))); [|reflexivity].
    eapply Forall_impl; [apply Forall_filter_true|].
    intros t Ht. now apply abs_negative_nonneg.
  - intros _ c v. unfold Dashboard.categoryTotals.
    rewrite categoryTotals_fold by (intros w; rewrite lookup_empty; discriminate).
    rewrite lookup_empty.
    destruct (Dashboard.has_category filtered c); [|discriminate].
    intros H. injection H as <-.
    apply (fold_nonneg (fun t => abs (Transaction.amount t))); [|reflexivity].
    eapply Forall_impl; [apply Forall_filter_true|].
    intros t Ht. apply andb_true_iff in Ht as [_ Ht].
    now apply abs_negative_nonneg.
Qed.

(** X22: the selected month decides what an added transaction does to
    the dashboard: dated outside it (or with a date the host cannot read),
    the in-scope list, and so every card and chart total, is what it was;
    dated inside it, the transaction joins the end of the in-scope list. *)
Theorem addTransaction_scope
        (getMonth getFullYear : string -> option Z) (selectedMonth selectedYear : Z)
        (uuid : string) (t : NewTransaction.t) (st : AppState) :
  let scope := filteredTransactions getMonth getFullYear selectedMonth selectedYear in
  (getMonth (NewTransaction.date t) <> Some selectedMonth
   \/ getFullYear (NewTransaction.date t) <> Some selectedYear ->
   scope (transactions (addTransaction uuid t st)) = scope (transactions st))
  /\ (getMonth (NewTransaction.date t) = Some selectedMonth ->
      getFullYear (NewTransaction.date t) = Some selectedYear ->
      scope (transactions (addTransaction uuid t st))
      = (scope (transactions st)
         ++ [Transaction.mk uuid (NewTransaction.date t)
               (NewTransaction.description t) (NewTransaction.category t)
               (NewTransaction.amount t) (NewTransaction.account t)])%list).
Proof.
  cbn zeta. unfold filteredTransactions.
  cbn [addTransaction transactions]. rewrite List.filter_app.
  cbn [List.filter Transaction.date]. split.
  - intros [H|H].
    + rewrite (bool_decide_eq_false_2 _ H). cbn. apply app_nil_r.
    + rewrite (bool_decide_eq_false_2 _ H), andb_false_r. apply app_nil_r.
  - intros Hm Hy.
    now rewrite (bool_decide_eq_true_2 _ Hm), (bool_decide_eq_true_2 _ Hy).
Qed.

Lemma addTransaction_scope_witness :
  let scope :=
    filteredTransactions SampleDates.getMonth SampleDates.getFullYear 0 2024 in
  let february :=
    NewTransaction.mk "2024-02-01" "Netflix" "Entertainment" (of_Z (-15)) "credit1" in
  scope (transactions Sample.entered) = [Sample.recorded (of_Z 10) "credit1"]
  /\ scope (transactions (addTransaction "t2" february Sample.entered))
     = scope (transactions Sample.entered)
  /\ scope (transactions (addTransaction "t2" Sample.purchase Sample.entered))
     = (scope (transactions Sample.entered)
        ++ [Transaction.mk "t2" "2024-01-05" "Coffee" "Food & Dining" (of_Z 10) "credit1"])%list.
Proof.
  intros scope february. split; [vm_compute; reflexivity|]. split.
  - apply (proj1 (addTransaction_scope SampleDates.getMonth SampleDates.getFullYear
                    0 2024 "t2" february Sample.entered)).
    left. vm_compute. discriminate.
  - apply (proj2 (addTransaction_scope SampleDates.getMonth SampleDates.getFullYear
                    0 2024 "t2" Sample.purchase Sample.entered));
      vm_compute; reflexivity.
Defined.

Lemma find_snoc {A} (p : A -> bool) (l : list A) (a : A) :
  List.find p (l ++ [a])
  = match List.find p l with
    | Some b => Some b
    | None => if p a then Some a else None
    end.
Proof.
  induction l as [|x l IH]; [reflexivity|].
  cbn. now destruct (p x).
Qed.

Lemma accountBalances_fold n l :
  forall acc : gmap string number,
    fold_left (fun acc account => <[Account.name account := Account.balance account]> acc)
              l acc !! n
    = match List.find (fun a => String.eqb (Account.name a) n) (rev l) with
      | Some a => Some (Account.balance a)
      | None => acc !! n
      end.
Proof.
  induction l as [|a l IH]; intros acc; [reflexivity|].
  cbn [fold_left rev]. rewrite IH, find_snoc.
  destruct (List.find _ (rev l)); [reflexivity|].
  destruct (String.eqb_spec (Account.name a) n) as [->|Hne].
  - now rewrite lookup_insert_eq.
  - now rewrite lookup_insert_ne.
Qed.

(** X23: the balances chart has one bar per account name (names that are
    not property names of [Object.prototype]): under a name it shows the
    balance of the last account so named, so accounts sharing a name
    collapse into one bar, and with distinct names every account is shown
    with its own balance. *)
Theorem accountBalances_last_wins accounts :
  Forall (fun a => Dashboard.plain_key (Account.name a)) accounts ->
  (forall n,
      Cards.accountBalances accounts !! n
      = Account.balance
          <$> List.find (fun a => String.eqb (Account.name a) n) (rev accounts))
  /\ (NoDup (map Account.name accounts) ->
      forall a, In a accounts ->
                Cards.accountBalances accounts !! Account.name a
                = Some (Account.balance a)).
Proof.
  intros _.
  assert (H : forall n,
             Cards.accountBalances accounts !! n
             = Account.balance
                 <$> List.find (fun a => String.eqb (Account.name a) n) (rev accounts)).
  { intros n. unfold Cards.accountBalances. rewrite accountBalances_fold.
    destruct (List.find _ _); [reflexivity | apply lookup_empty]. }
  split; [exact H|].
  intros Hn a Ha. rewrite H.
  destruct (List.find _ (rev accounts)) as [b|] eqn:E.
  - apply find_some in E as [Hb E]. apply String.eqb_eq in E.
    apply in_rev in Hb. cbn.
    now rewrite (NoDup_map_eq Account.name accounts b a Hn Hb Ha E).
  - apply in_rev in Ha. apply (find_none _ _ E) in Ha.
    now rewrite String.eqb_refl in Ha.
Qed.

Lemma accountBalances_last_wins_witness :
  Cards.accountBalances seed_accounts !! "Savings Account 1"
  = Some (S754_finite false 6244016582977126 (-40)).
Proof.
  apply (proj2 (accountBalances_last_wins seed_accounts
                  ltac:(repeat constructor; vm_compute; intuition discriminate))
           ltac:(vm_compute;
                 repeat (apply NoDup_cons_2;
                         [rewrite ?elem_of_cons, elem_of_nil; intuition discriminate|]);
                 apply NoDup_nil_2)
           (Account.mk "savings1" "Savings Account 1" savings
              (S754_finite false 6244016582977126 (-40)))).
  right. left. reflexivity.
Defined.

(** ** Exact reconciliation *)

Lemma imported_attributed (uuid : nat -> string) accountId x batch :
  forall (g : nat -> nat) acc,
    fold_left (fun sum t => add sum (Transaction.amount t))
      (List.filter (fun t => String.eqb (Transaction.account t) x)
         (imap (fun i t =>
                  Transaction.mk (uuid (g i))
                    (NewTransaction.date t) (NewTransaction.description t)
                    (categorizeTransaction (NewTransaction.description t))
                    (NewTransaction.amount t) accountId) batch))
      acc
    = if String.eqb accountId x
      then fold_left (fun sum t => add sum (NewTransaction.amount t)) batch acc
      else acc.
Proof.
  induction batch as [|t batch IH]; intros g acc.
  - cbn. now destruct (String.eqb accountId x).
  - cbn [imap List.filter Transaction.account].
    change (imap ((fun i t0 => Transaction.mk (uuid (g i)) (NewTransaction.date t0)
                      (NewTransaction.description t0)
                      (categorizeTransaction (NewTransaction.description t0))
                      (NewTransaction.amount t0) accountId) ∘ S) batch)
      with (imap (fun i t0 => Transaction.mk (uuid ((g ∘ S) i)) (NewTransaction.date t0)
                      (NewTransaction.description t0)
                      (categorizeTransaction (NewTransaction.description t0))
                      (NewTransaction.amount t0) accountId) batch).
    destruct (String.eqb accountId x) eqn:E.
    + cbn [fold_left Transaction.amount]. rewrite IH. rewrite ?E. reflexivity.
    + rewrite IH. rewrite ?E. reflexivity.
Qed.

Lemma imported_balance uuid batch accountId a0 :
  Account.balance a0 <> neg_zero ->
  let a := if String.eqb (Account.id a0) accountId
           then Account.with_balance a0
                  (add (Account.balance a0)
                       (fold_left (fun sum t => add sum (NewTransaction.amount t))
                                  batch zero))
           else a0 in
  Account.id a = Account.id a0
  /\ Account.balance a
     = add (Account.balance a0)
           (Reconciliation.attributed
              (imap (fun i t =>
                       Transaction.mk (uuid i)
                         (NewTransaction.date t) (NewTransaction.description t)
                         (categorizeTransaction (NewTransaction.description t))
                         (NewTransaction.amount t) accountId) batch)
              (Account.id a0)).
Proof.
  intros Hz a. unfold Reconciliation.attributed.
  rewrite (imported_attributed uuid accountId _ batch (fun i => i) zero).
  rewrite String.eqb_sym. subst a.
  destruct (String.eqb (Account.id a0) accountId); split; try reflexivity.
  symmetry. now apply add_zero_r.
Qed.

(** X25: from the seeded accounts and an empty ledger, one bulk import
    (of any batch, into any account id) leaves the accounts exactly
    reconciled: each balance is its seed plus the sum of the amounts now
    attributed to the account. *)
Theorem first_import_reconciled uuid batch accountId :
  Reconciliation.reconciled (importTransactions uuid batch accountId initial).
Proof.
  unfold Reconciliation.reconciled.
  cbn [importTransactions accounts transactions initial app].
  unfold seed_accounts. cbn [map].
  repeat (apply Forall_cons_2; [|]); [| | |apply Forall_nil_2];
    match goal with
    | |- context [if String.eqb (Account.id ?a0) accountId then _ else _] =>
        destruct (imported_balance uuid batch accountId a0 ltac:(discriminate))
          as [Hid Hbal];
        rewrite Hid, Hbal; cbn [Account.id Account.balance];
        (split; [discriminate|]);
        intros seed Hs; injection Hs as <-; reflexivity
    end.
Qed.

Lemma add_only_step base uuid t st :
  Forall2 (fun a0 a =>
             Account.id a = Account.id a0
             /\ Account.balance a
                = fold_left (fun sum t => add sum (Transaction.amount t))
                    (List.filter (fun t => String.eqb (Transaction.account t) (Account.id a0))
                                 (transactions st))
                    (Account.balance a0))
          base (accounts st) ->
  Forall2 (fun a0 a =>
             Account.id a = Account.id a0
             /\ Account.balance a
                = fold_left (fun sum t => add sum (Transaction.amount t))
                    (List.filter (fun t => String.eqb (Transaction.account t) (Account.id a0))
                                 (transactions (addTransaction uuid t st)))
                    (Account.balance a0))
          base (accounts (addTransaction uuid t st)).
Proof.
  intros H. cbn [addTransaction accounts transactions].
  induction H as [|a0 a base accs [Hid Hbal] _ IH]; [constructor|].
  cbn [map]. constructor; [|exact IH].
  rewrite List.filter_app, fold_left_app.
  cbn [List.filter Transaction.account Transaction.amount].
  rewrite (String.eqb_sym (NewTransaction.account t) (Account.id a0)), <- Hid.
  destruct (String.eqb (Account.id a) (NewTransaction.account t)); cbn.
  - split; [reflexivity|]. now rewrite Hbal, Hid.
  - split; [reflexivity|]. now rewrite Hbal, Hid.
Qed.

(** X26: while transactions are only added, starting from an empty
    ledger, every balance is its starting balance with the amounts now
    attributed to the account added one after the other in ledger order
    (binary64 additions, in that order). *)
Theorem add_only_running_balance ms st0 :
  Forall (fun m => exists uuid t, m = MAdd uuid t) ms ->
  transactions st0 = [] ->
  Forall2 (fun a0 a =>
             Account.id a = Account.id a0
             /\ Account.balance a
                = fold_left (fun sum t => add sum (Transaction.amount t))
                    (List.filter (fun t => String.eqb (Transaction.account t) (Account.id a0))
                                 (transactions (replay ms st0)))
                    (Account.balance a0))
          (accounts st0) (accounts (replay ms st0)).
Proof.
  intros Hms H0.
  assert (G : forall st base,
             Forall2 (fun a0 a =>
                        Account.id a = Account.id a0
                        /\ Account.balance a
                           = fold_left (fun sum t => add sum (Transaction.amount t))
                               (List.filter
                                  (fun t => String.eqb (Transaction.account t) (Account.id a0))
                                  (transactions st))
                               (Account.balance a0))
                     base (accounts st) ->
             Forall2 (fun a0 a =>
                        Account.id a = Account.id a0
                        /\ Account.balance a
                           = fold_left (fun sum t => add sum (Transaction.amount t))
                               (List.filter
                                  (fun t => String.eqb (Transaction.account t) (Account.id a0))
                                  (transactions (replay ms st)))
                               (Account.balance a0))
                     base (accounts (replay ms st))).
  { unfold replay.
    induction Hms as [|m ms (uuid & t & ->) _ IH]; intros st base H; [exact H|].
    cbn [fold_left mutate]. apply IH. now apply add_only_step. }
  apply G. rewrite H0. cbn [List.filter fold_left].
  induction (accounts st0); constructor; auto.
Qed.

Lemma add_only_running_balance_witness :
  Forall2 (fun a0 a =>
             Account.id a = Account.id a0
             /\ Account.balance a
                = fold_left (fun sum t => add sum (Transaction.amount t))
                    (List.filter (fun t => String.eqb (Transaction.account t) (Account.id a0))
                       (transactions
                          (replay [MAdd "t1" Sample.purchase; MAdd "t2" Sample.purchase]
                                  initial)))
                    (Account.balance a0))
          (accounts initial)
          (accounts (replay [MAdd "t1" Sample.purchase; MAdd "t2" Sample.purchase] initial)).
Proof.
  apply add_only_running_balance.
  - repeat constructor; eexists; eexists; reflexivity.
  - reflexivity.
Defined.

(** ** Line endings of delimited text *)

Import LineEndings.

Lemma split_cons sep s : exists w ws, Str.split sep s = w :: ws.
Proof.
  destruct s as [|c s]; cbn; [eauto|].
  destruct (Ascii.eqb c sep); [eauto|].
  destruct (Str.split sep s); eauto.
Qed.

Lemma crlf_LF s : crlf (String LF s) = String CR (String LF (crlf s)).
Proof. reflexivity. Qed.

Lemma crlf_other c s : c <> LF -> crlf (String c s) = String c (crlf s).
Proof. intros H. cbn [crlf]. now destruct (Ascii.eqb_spec c LF). Qed.

Lemma trimStart_crlf t : Str.trimStart (crlf t) = crlf (Str.trimStart t).
Proof.
  induction t as [|c t IH]; [reflexivity|].
  destruct (ascii_dec c LF) as [->|Hc].
  - rewrite crlf_LF. exact IH.
  - rewrite (crlf_other c t Hc). cbn [Str.trimStart].
    destruct (Str.is_space c); [exact IH|].
    now rewrite (crlf_other c t Hc).
Qed.

Lemma trimEnd_aux_crlf t : Str.trimEnd_aux (crlf t) = crlf <$> Str.trimEnd_aux t.
Proof.
  induction t as [|c t IH]; [reflexivity|].
  destruct (ascii_dec c LF) as [->|Hc].
  - rewrite crlf_LF. cbn [Str.trimEnd_aux]. rewrite IH.
    destruct (Str.trimEnd_aux t) as [r|]; reflexivity.
  - rewrite (crlf_other c t Hc). cbn [Str.trimEnd_aux]. rewrite IH.
    destruct (Str.trimEnd_aux t) as [r|]; cbn [fmap option_fmap option_map].
    + now rewrite (crlf_other c r Hc).
    + destruct (Str.is_space c); cbn [fmap option_fmap option_map]; [reflexivity|].
      now rewrite (crlf_other c EmptyString Hc).
Qed.

Lemma trim_crlf t : Str.trim (crlf t) = crlf (Str.trim t).
Proof.
  unfold Str.trim, Str.trimEnd. rewrite trimStart_crlf, trimEnd_aux_crlf.
  now destruct (Str.trimEnd_aux _).
Qed.

Lemma split_LF_other c u :
  c <> LF ->
  Str.split LF (String c u)
  = match Str.split LF u with
    | w :: ws => String c w :: ws
    | [] => [String c EmptyString]
    end.
Proof. intros H. cbn [Str.split]. now destruct (Ascii.eqb_spec c LF). Qed.

Lemma split_crlf u : Str.split LF (crlf u) = add_cr (Str.split LF u).
Proof.
  induction u as [|c u IH]; [reflexivity|].
  destruct (ascii_dec c LF) as [->|Hc].
  - rewrite crlf_LF.
    change (Str.split LF (String CR (String LF (crlf u))))
      with (String CR EmptyString :: Str.split LF (crlf u)).
    change (Str.split LF (String LF u)) with (EmptyString :: Str.split LF u).
    rewrite IH. destruct (split_cons LF u) as (w & ws & ->). reflexivity.
  - rewrite (crlf_other c u Hc), !split_LF_other by exact Hc.
    rewrite IH. destruct (split_cons LF u) as (w & ws & ->).
    cbn [add_cr]. now destruct ws.
Qed.

Lemma split_other sep c s :
  c <> sep ->
  Str.split sep (String c s)
  = match Str.split sep s with
    | w :: ws => String c w :: ws
    | [] => [String c EmptyString]
    end.
Proof. intros H. cbn [Str.split]. now destruct (Ascii.eqb_spec c sep). Qed.

Lemma split_snoc sep c s :
  c <> sep ->
  Str.split sep (s +:+ String c EmptyString) = snoc_last c (Str.split sep s).
Proof.
  intros Hc. induction s as [|d s IH].
  - simpl. now destruct (Ascii.eqb_spec c sep).
  - simpl. rewrite IH.
    destruct (split_cons sep s) as (w & ws & ->).
    destruct (Ascii.eqb d sep); simpl; now destruct ws.
Qed.

Lemma trimEnd_aux_snoc c s :
  Str.is_space c = true ->
  Str.trimEnd_aux (s +:+ String c EmptyString) = Str.trimEnd_aux s.
Proof.
  intros Hc. induction s as [|d s IH]; simpl; [now rewrite Hc|].
  now rewrite IH.
Qed.

Lemma trim_snoc c s :
  Str.is_space c = true -> Str.trim (s +:+ String c EmptyString) = Str.trim s.
Proof.
  intros Hc. unfold Str.trim, Str.trimEnd.
  induction s as [|d s IH]; simpl; [now rewrite Hc|].
  destruct (Str.is_space d); [exact IH|].
  change (String d (s +:+ String c EmptyString))
    with (String d s +:+ String c EmptyString).
  now rewrite trimEnd_aux_snoc.
Qed.

Lemma cells_snoc c l :
  Str.is_space c = true -> map Str.trim (snoc_last c l) = map Str.trim l.
Proof.
  intros Hc. induction l as [|w ws IH]; [reflexivity|].
  cbn [snoc_last]. destruct ws as [|w' ws'].
  - cbn [map]. now rewrite trim_snoc.
  - cbn [map] in *. now rewrite IH.
Qed.

Lemma cells_CR line :
  map Str.trim (Str.split "," (line +:+ String CR EmptyString))
  = map Str.trim (Str.split "," line).
Proof.
  rewrite split_snoc by discriminate. now apply cells_snoc.
Qed.

Lemma parseCSV_row_CR headers line :
  parseCSV_row headers (line +:+ String CR EmptyString) = parseCSV_row headers line.
Proof. unfold parseCSV_row. now rewrite cells_CR. Qed.

Lemma rows_add_cr headers lines :
  map (parseCSV_row headers) (add_cr lines) = map (parseCSV_row headers) lines.
Proof.
  induction lines as [|w ws IH]; [reflexivity|].
  cbn [add_cr]. destruct ws as [|w' ws']; [reflexivity|].
  cbn [map] in *. now rewrite parseCSV_row_CR, IH.
Qed.

(** X27: carriage returns before the line feeds do not matter: a
    delimited text with CR LF line endings decodes to the same records
    as the text with LF line endings. *)
Theorem parseCSV_crlf text : parseCSV (crlf text) = parseCSV text.
Proof.
  unfold parseCSV. rewrite trim_crlf, split_crlf.
  destruct (split_cons LF (Str.trim text)) as (w & ws & ->).
  destruct ws as [|w' ws']; [reflexivity|].
  cbn [add_cr hd tl]. rewrite cells_CR.
  apply (rows_add_cr _ (w' :: ws')).
Qed.

Lemma split_length sep s : length (Str.split sep s) = S (occurrences sep s).
Proof.
  induction s as [|c s IH]; [reflexivity|].
  cbn [Str.split occurrences]. destruct (Ascii.eqb c sep); cbn; [now rewrite IH|].
  destruct (split_cons sep s) as (w & ws & E). rewrite E in *. exact IH.
Qed.

(** X28: the delimited-text decoder returns one record per line feed of
    the trimmed text: the first line is the header, every later line
    (blank ones included) is a record; so an empty text, a blank text and
    a text with only a header line give no record. *)
Theorem parseCSV_count text :
  length (parseCSV text) = occurrences LF (Str.trim text).
Proof.
  unfold parseCSV. rewrite length_map.
  pose proof (split_length LF (Str.trim text)) as H.
  destruct (Str.split LF (Str.trim text)); cbn in *; lia.
Qed.

(** X29: a JSON object whose [Date] property is missing or falsy (the
    empty string, [0], [false], [null]) decodes to a record that the
    validation drops, whatever the host and the other properties. *)
Theorem json_without_Date_is_dropped
        (Number_toString : number -> string) (props : list (string * json))
        (r : Parsed.t) :
  (forall d, Json.own props "Date" = Some d -> Json.truthy d = false) ->
  parseYNAB_item Number_toString (JObj props) = Normal r ->
  keep r = false.
Proof.
  intros Hd H. unfold parseYNAB_item in H. cbn in H.
  destruct (Json.toString _ _) as [s|]; [|discriminate H].
  cbn in H. injection H as <-.
  unfold keep. cbn [Parsed.date].
  destruct (Json.own props "Date") as [d|]; [|reflexivity].
  cbn. now rewrite (Hd d eq_refl).
Qed.

Lemma json_without_Date_is_dropped_witness :
  keep (Parsed.mk (JStr "") (JStr "Coffee") (of_Z 5)) = false.
Proof.
  apply (json_without_Date_is_dropped SampleHost.Number_toString
           [("date", JStr "2024-01-05"); ("Description", JStr "Coffee");
            ("Amount", JNum (of_Z 5))]).
  - intros d H. discriminate H.
  - vm_compute. reflexivity.
Defined.

Lemma updateTransaction_ledger_witness :
  transactions (updateTransaction "t1" (Sample.edit (of_Z 20) "checking1") Sample.entered)
    !! 0%nat
  = Some (Sample.recorded (of_Z 20) "checking1").
Proof.
  rewrite (proj1 (proj2 (updateTransaction_ledger
                           "t1" (Sample.edit (of_Z 20) "checking1") Sample.entered))
             0%nat (Sample.recorded (of_Z 10) "credit1") eq_refl).
  reflexivity.
Defined.

Lemma dashboard_totals_nonneg_witness :
  nonneg (Dashboard.income Dashboard.example_month) = true
  /\ nonneg (Cards.monthlyExpenses Dashboard.example_month) = true
  /\ forall c v,
      Dashboard.categoryTotals Dashboard.example_month !! c = Some v -> nonneg v = true.
Proof.
  destruct (dashboard_totals_nonneg Dashboard.example_month) as [H1 [_ [H3 H4]]].
  split; [exact H1|]. split; [exact H3|]. apply H4.
  repeat constructor; intros H; cbn in H; intuition discriminate.
Defined.
